(** * deployment-feedback-action: the deployment gate of [src/index.js]

    A shallow embedding of [src/index.js].  JavaScript strings are Rocq
    [string]s, [undefined] is [None], arrays are lists, a rejected promise
    or a thrown exception is the [Throw] case of [js], and a promise that
    never settles is [None] at [Promise_all].  Logging ([console.log],
    [core.info]) changes no value and is left out. *)

From Stdlib Require Import Ascii String NArith.
From stdpp Require Import base option list strings.

Local Open Scope string_scope.

(** ** JavaScript values *)

Module Js.

(** The exceptions that can travel through the program. *)
Inductive error : Type :=
| TypeError_property_of_undefined (property : string)
| SyntaxError_invalid_regexp (pattern : string)
| ExternalError (message : string).

(** Result of evaluating code that may throw (or of awaiting a promise
    that may reject). *)
Inductive js (A : Type) : Type :=
| Return (a : A)
| Throw (e : error).
Arguments Return {A} a.
Arguments Throw {A} e.

Definition bind {A B} (m : js A) (k : A -> js B) : js B :=
  match m with
  | Return a => k a
  | Throw e => Throw e
  end.

(** [ToBoolean]: the truth value JavaScript gives a value in a condition. *)
Class ToBoolean (A : Type) := to_boolean : A -> bool.
Global Hint Mode ToBoolean ! : typeclass_instances.

#[global] Instance bool_to_boolean : ToBoolean bool := fun b => b.
#[global] Instance string_to_boolean : ToBoolean string :=
  fun s => match s with EmptyString => false | String _ _ => true end.
(** Every array is truthy, the empty one too. *)
#[global] Instance array_to_boolean {A} : ToBoolean (list A) := fun _ => true.
(** [undefined] and [null] are falsy. *)
#[global] Instance undefined_to_boolean {A} `{ToBoolean A} : ToBoolean (option A) :=
  fun o => match o with None => false | Some a => to_boolean a end.

(** String conversion in a template literal: [`${x}`]. *)
Definition template (o : option string) : string :=
  match o with
  | None => "undefined"
  | Some s => s
  end.

(** [s.split(sep)] for a one-character separator. *)
Fixpoint split (sep : ascii) (s : string) : list string :=
  match s with
  | EmptyString => [EmptyString]
  | String c rest =>
      if Ascii.eqb c sep then EmptyString :: split sep rest
      else match split sep rest with
           | [] => [String c EmptyString]
           | h :: t => String c h :: t
           end
  end.

(** [s.replace(pat, rep)] for a one-character string pattern: only the
    first occurrence is replaced. *)
Fixpoint replace (pat : ascii) (rep : string) (s : string) : string :=
  match s with
  | EmptyString => EmptyString
  | String c rest =>
      if Ascii.eqb c pat then rep +:+ rest
      else String c (replace pat rep rest)
  end.

(** [/^p/.test(s)]: [s] begins with the literal [p]. *)
Definition starts_with (p s : string) : bool := String.prefix p s.

(** [a.join(sep)]. *)
Fixpoint join (sep : string) (l : list string) : string :=
  match l with
  | [] => EmptyString
  | [x] => x
  | x :: rest => x +:+ sep +:+ join sep rest
  end.

(** [c] occurs in [s]. *)
Fixpoint occurs (c : ascii) (s : string) : bool :=
  match s with
  | EmptyString => false
  | String d rest => Ascii.eqb d c || occurs c rest
  end.

End Js.

(** [js] is a monad; the instances are for stdpp's [mapM]. *)
#[global] Instance js_ret : MRet Js.js := @Js.Return.
#[global] Instance js_bind : MBind Js.js := fun A B k m => Js.bind m k.

Notation "'let*' x ':=' m 'in' k" := (Js.bind m (fun x => k))
  (at level 10, x name, m at level 100, k at level 200).

(** ** The semver library

    [semver] is an npm dependency, not code of this repository.  The gate
    uses two of its functions; this is their interface. *)

Record SemverLib : Type := {
  SemVer : Type;
  (** [semver.parse(s)]: the parsed version, or [null]. *)
  parse : string -> option SemVer;
  (** [semver.satisfies(version, range)]. *)
  satisfies : string -> string -> bool;
}.

(** Modelled from the spec: the npm package [semver] is missing from the
    sources.  The model follows the semantics the spec names (section 4.1:
    semver ordering, caret ranges, tilde ranges) as Semantic Versioning 2.0.0
    and the package's documentation define them, for the strict grammar
    [v?MAJOR.MINOR.PATCH(-PRERELEASE)?(+BUILD)?] and for the ranges the gate
    builds: one of [>=], [^], [~] followed by a full version. *)
Module NodeSemver.

Inductive identifier : Type :=
| Numeric (n : N)
| Alphanumeric (s : string).

Record version : Type := {
  major : N;
  minor : N;
  patch : N;
  prerelease : list identifier;
  build : list string;
}.

Definition MAX_LENGTH : nat := 256.
Definition MAX_SAFE_INTEGER : N := 9007199254740991.

Definition between (lo hi : N) (c : ascii) : bool :=
  let n := N_of_ascii c in (lo <=? n)%N && (n <=? hi)%N.

Definition is_digit : ascii -> bool := between 48 57.
Definition is_letter (c : ascii) : bool := between 65 90 c || between 97 122 c.
Definition is_identifier_char (c : ascii) : bool :=
  is_digit c || is_letter c || Ascii.eqb c "-".

Fixpoint all_chars (p : ascii -> bool) (s : string) : bool :=
  match s with
  | EmptyString => true
  | String c rest => p c && all_chars p rest
  end.

Fixpoint digits_value (acc : N) (s : string) : N :=
  match s with
  | EmptyString => acc
  | String c rest => digits_value (10 * acc + (N_of_ascii c - 48))%N rest
  end.

(** [0|[1-9]\d*]: digits without a leading zero. *)
Definition numeric_identifier (s : string) : option N :=
  match s with
  | EmptyString => None
  | String c rest =>
      if all_chars is_digit s
         && negb (Ascii.eqb c "0" && negb (String.eqb rest EmptyString))
      then Some (digits_value 0 s)
      else None
  end.

Definition prerelease_identifier (s : string) : option identifier :=
  match s with
  | EmptyString => None
  | String _ _ =>
      if all_chars is_digit s then Numeric <$> numeric_identifier s
      else if all_chars is_identifier_char s then Some (Alphanumeric s)
      else None
  end.

Definition build_identifier (s : string) : option string :=
  match s with
  | EmptyString => None
  | String _ _ => if all_chars is_identifier_char s then Some s else None
  end.

(** Cut [s] at the first [sep]: what is before it, and what is after it
    when [sep] occurs. *)
Fixpoint cut (sep : ascii) (s : string) : string * option string :=
  match s with
  | EmptyString => (EmptyString, None)
  | String c rest =>
      if Ascii.eqb c sep then (EmptyString, Some rest)
      else let '(before, after) := cut sep rest in (String c before, after)
  end.

Definition dotted {A} (f : string -> option A) (o : option string)
  : option (list A) :=
  match o with
  | None => Some []
  | Some s => mapM f (Js.split "." s)
  end.

Definition safe (n : N) : option N :=
  if (n <=? MAX_SAFE_INTEGER)%N then Some n else None.

Definition parse (raw : string) : option version :=
  if Nat.ltb MAX_LENGTH (String.length raw) then None
  else
    let s := match raw with String "v" rest => rest | _ => raw end in
    let '(main_pre, b) := cut "+" s in
    let '(main, p) := cut "-" main_pre in
    match Js.split "." main with
    | [x; y; z] =>
        M ← numeric_identifier x ≫= safe;
        m ← numeric_identifier y ≫= safe;
        pt ← numeric_identifier z ≫= safe;
        pre ← dotted prerelease_identifier p;
        bld ← dotted build_identifier b;
        Some {| major := M; minor := m; patch := pt;
                prerelease := pre; build := bld |}
    | _ => None
    end.

(** Precedence (Semantic Versioning 2.0.0, item 11); build metadata is
    ignored. *)
Definition compare_identifier (a b : identifier) : comparison :=
  match a, b with
  | Numeric x, Numeric y => (x ?= y)%N
  | Numeric _, Alphanumeric _ => Lt
  | Alphanumeric _, Numeric _ => Gt
  | Alphanumeric x, Alphanumeric y => String.compare x y
  end.

Fixpoint compare_identifiers (a b : list identifier) : comparison :=
  match a, b with
  | [], [] => Eq
  | [], _ :: _ => Lt
  | _ :: _, [] => Gt
  | x :: a', y :: b' =>
      match compare_identifier x y with
      | Eq => compare_identifiers a' b'
      | c => c
      end
  end.

Definition compare_prerelease (a b : list identifier) : comparison :=
  match a, b with
  | [], [] => Eq
  | [], _ :: _ => Gt
  | _ :: _, [] => Lt
  | _, _ => compare_identifiers a b
  end.

Definition then_compare (c d : comparison) : comparison :=
  match c with Eq => d | _ => c end.

Definition compare (a b : version) : comparison :=
  then_compare (major a ?= major b)%N
    (then_compare (minor a ?= minor b)%N
       (then_compare (patch a ?= patch b)%N
          (compare_prerelease (prerelease a) (prerelease b)))).

Inductive operator : Type := GreaterEqual | Less.

Record comparator : Type := { op : operator; bound : version }.

Definition test (c : comparator) (v : version) : bool :=
  match op c, compare v (bound c) with
  | GreaterEqual, (Eq | Gt) => true
  | Less, Lt => true
  | _, _ => false
  end.

(** The exclusive upper bound [M.m.p-0]. *)
Definition below (M m p : N) : comparator :=
  {| op := Less;
     bound := {| major := M; minor := m; patch := p;
                 prerelease := [Numeric 0]; build := [] |} |}.

Definition at_least (v : version) : comparator :=
  {| op := GreaterEqual; bound := v |}.

(** [^M.m.p]: changes that do not modify the left-most non-zero element. *)
Definition caret (v : version) : list comparator :=
  [at_least v;
   if negb (major v =? 0)%N then below (major v + 1) 0 0
   else if negb (minor v =? 0)%N then below 0 (minor v + 1) 0
   else below 0 0 (patch v + 1)].

(** [~M.m.p]: patch-level changes. *)
Definition tilde (v : version) : list comparator :=
  [at_least v; below (major v) (minor v + 1) 0].

Fixpoint strip_prefix (p s : string) : option string :=
  match p, s with
  | EmptyString, _ => Some s
  | String a p', String b s' =>
      if Ascii.eqb a b then strip_prefix p' s' else None
  | String _ _, EmptyString => None
  end.

Definition parse_range (range : string) : option (list comparator) :=
  match strip_prefix ">=" range with
  | Some rest => v ← parse rest; Some [at_least v]
  | None =>
      match strip_prefix "^" range with
      | Some rest => caret <$> parse rest
      | None =>
          match strip_prefix "~" range with
          | Some rest => tilde <$> parse rest
          | None => None
          end
      end
  end.

Definition same_tuple (a b : version) : bool :=
  (major a =? major b)%N && (minor a =? minor b)%N && (patch a =? patch b)%N.

Definition has_prerelease (v : version) : bool :=
  match prerelease v with [] => false | _ :: _ => true end.

(** A version with a prerelease tag satisfies a comparator set only if a
    comparator with the same [major.minor.patch] has a prerelease tag too. *)
Definition test_set (set : list comparator) (v : version) : bool :=
  forallb (fun c => test c v) set
  && (negb (has_prerelease v)
      || existsb (fun c => has_prerelease (bound c) && same_tuple (bound c) v)
           set).

Definition satisfies (v range : string) : bool :=
  match parse_range range, parse v with
  | Some set, Some ver => test_set set ver
  | _, _ => false
  end.

Definition lib : SemverLib := Build_SemverLib version parse satisfies.

End NodeSemver.

(** ** The program *)

Definition REGION : string := "eu-north-1".

(** An object literal with string keys: its properties in insertion order. *)
Definition object (V : Type) : Type := list (string * V).

(** [o[k]]. *)
Fixpoint get {V} (o : object V) (k : string) : option V :=
  match o with
  | [] => None
  | (k', v) :: rest => if String.eqb k' k then Some v else get rest k
  end.

(** [Object.keys(o)]. *)
Definition Object_keys {V} (o : object V) : list string := fst <$> o.

Definition ENV_VERSION_COMPARATOR : object string :=
  [("dev", ">=");          (* Deploy all newer versions *)
   ("sandbox", "^");       (* Deploy only minor and patch versions *)
   ("production", "~")].   (* Deploy only patches *)

(** What the ECS service answers to the two [client.send] calls of
    [getCurrentImage]: the promise rejects (also when the service list is
    empty), or the task definition lists its containers' images. *)
Inductive ecs_response : Type :=
| EcsRejects (e : Js.error)
| EcsContainers (images : list string).

Record PullRequest : Type := {
  number : N;
  state : string;
  base_ref : string;
}.

(** Everything outside the program that it reads. *)
Record World : Type := {
  (** ECS, by access key, secret, cluster and service. *)
  ecs : string -> string -> string -> string -> ecs_response;
  (** [new RegExp(pattern)]: throws, or gives the [test] function. *)
  regexp : option string -> Js.js (string -> bool);
  (** [listPullRequestsAssociatedWithCommit], by token, owner, repo, sha. *)
  pulls : string -> option string -> option string -> string
          -> Js.js (list PullRequest);
  (** [new Date().toISOString()]. *)
  now : string;
}.

Record Image : Type := {
  image : string;
  tag : option string;
}.

(** [cds.find((c) => new RegExp(repoName).test(c.image))]. *)
Fixpoint find_container (w : World) (repoName : option string)
  (cds : list string) : Js.js (option string) :=
  match cds with
  | [] => Js.Return None
  | c :: rest =>
      let* re := regexp w repoName in
      if re c then Js.Return (Some c) else find_container w repoName rest
  end.

(** Lines 18-50. *)
Definition getCurrentImage (w : World) (env key secret : string)
  (repoName : option string) (cluster service : string) : Js.js Image :=
  match ecs w key secret cluster service with
  | EcsRejects e => Js.Throw e
  | EcsContainers cds =>
      let* cdx := find_container w repoName cds in
      match cdx with
      | None => Js.Throw (Js.TypeError_property_of_undefined "image")
      | Some currentImage =>
          Js.Return {| image := currentImage;
                       tag := Js.split ":" currentImage !! 1 |}
      end
  end.

Module Options.
Record t : Type := {
  releaseVersion : string;
  repoName : option string;
  clusterName : string;
  serviceName : string;
  devEcsKey : string;
  devEcsSecret : string;
  sandboxEcsKey : string;
  sandboxEcsSecret : string;
  productionEcsKey : string;
  productionEcsSecret : string;
}.
End Options.

Record Credentials : Type := {
  key : string;
  secret : string;
}.

(** An object is truthy whatever its properties hold. *)
#[global] Instance credentials_to_boolean : Js.ToBoolean Credentials :=
  fun _ => true.

(** Lines 67-80. *)
Definition ECS (opts : Options.t) : object Credentials :=
  [("dev", {| key := Options.devEcsKey opts;
              secret := Options.devEcsSecret opts |});
   ("sandbox", {| key := Options.sandboxEcsKey opts;
                  secret := Options.sandboxEcsSecret opts |});
   ("production", {| key := Options.productionEcsKey opts;
                     secret := Options.productionEcsSecret opts |})].

(** Lines 82-85: [hasCredentials] is [!!ECS[env]]. *)
Definition hasCredentials (opts : Options.t) (env : string) : bool :=
  Js.to_boolean (get (ECS opts) env).

Definition envs (opts : Options.t) : list string :=
  List.filter (hasCredentials opts) (Object_keys ENV_VERSION_COMPARATOR).

Record GateResult : Type := {
  env : string;
  currentImageTag : option string;
  releaseVersion : string;
  willBeReplaced : bool;
}.

(** Line 108: prereleases are treated as builds. *)
Definition tagAsBuild (releaseVersion : string) : string :=
  Js.replace "-" "+" releaseVersion.

(** [Promise.all] over promises that fulfil with [values] and settle in the
    order [order] (positions in the array): each value is stored at the
    position of its promise, and the result is there once every position is
    filled.  [None]: some promise never settles. *)
Definition settle {A} (order : list nat) (values : list A) : list (option A) :=
  foldl (fun slots i => <[i := values !! i]> slots)
        (replicate (length values) None) order.

Definition Promise_all {A} (order : list nat) (values : list A)
  : option (list A) :=
  mapM id (settle order values).

Section Gate.

Context (semver : SemverLib).

(** A [SemVer] instance is an object. *)
#[local] Instance semver_to_boolean : Js.ToBoolean (SemVer semver) :=
  fun _ => true.

(** [semver.parse] of a value that is not a string is [null]. *)
Definition semver_parse (v : option string) : option (SemVer semver) :=
  v ≫= parse semver.

(** Lines 101-114: the decision for one environment. *)
Definition gate (env : string) (currentImageTag : option string)
  (releaseVersion : string) : bool :=
  let versionComparator := get ENV_VERSION_COMPARATOR env in
  let isCurrentImageSemver := semver_parse currentImageTag in
  let semverRange :=
    Js.template versionComparator +:+ Js.template currentImageTag in
  if Js.to_boolean isCurrentImageSemver
     && satisfies semver (tagAsBuild releaseVersion) semverRange
  then true
  else if Js.starts_with "latest" (Js.template currentImageTag) then true
  else false.

(** Lines 88-125: the callback of [envs.map].  The [try] covers its whole
    body; the [catch] logs and falls through, so the promise fulfils with
    [undefined]. *)
Definition attempt (w : World) (opts : Options.t) (env : string)
  : Js.js GateResult :=
  let* creds := match get (ECS opts) env with
                 | Some c => Js.Return c
                 | None => Js.Throw (Js.TypeError_property_of_undefined "key")
                 end in
  let* image := getCurrentImage w env (key creds) (secret creds)
                  (Options.repoName opts)
                  (env +:+ "-" +:+ Options.clusterName opts)
                  (env +:+ "-" +:+ Options.serviceName opts) in
  Js.Return {| env := env;
               currentImageTag := tag image;
               releaseVersion := Options.releaseVersion opts;
               willBeReplaced :=
                 gate env (tag image) (Options.releaseVersion opts) |}.

Definition envFeedback (w : World) (opts : Options.t) (env : string)
  : option GateResult :=
  match attempt w opts env with
  | Js.Return r => Some r
  | Js.Throw _ => None
  end.

(** Lines 52-129. *)
Definition deploymentFeedback (w : World) (order : list nat)
  (opts : Options.t) : option (list (option GateResult)) :=
  Promise_all order (envFeedback w opts <$> envs opts).

End Gate.

(** Lines 147-166.  The request rejecting makes the call reject. *)
Definition openPrs (relatedPulls : list PullRequest) : list PullRequest :=
  List.filter (fun pr => String.eqb (state pr) "open") relatedPulls.

Definition mainPrs (relatedPulls : list PullRequest) : list PullRequest :=
  List.filter (fun pr => String.eqb (base_ref pr) "main") (openPrs relatedPulls).

Definition findPullRequest (w : World) (token : string)
  (owner repo : option string) (sha : string) : Js.js (list PullRequest) :=
  let* relatedPulls := pulls w token owner repo sha in
  if Js.to_boolean (mainPrs relatedPulls) then Js.Return (mainPrs relatedPulls)
  else Js.Return [].

(** Lines 203-209: the callback of [images.map].  Reading a property of
    [undefined] throws. *)
Definition summaryLine (i : option GateResult) : Js.js string :=
  match i with
  | None => Js.Throw (Js.TypeError_property_of_undefined "willBeReplaced")
  | Some i =>
      if Js.to_boolean (willBeReplaced i)
      then Js.Return ("✅ **" +:+ env i
                      +:+ "** will be updated, currently running "
                      +:+ Js.template (currentImageTag i))
      else Js.Return ("❌ **" +:+ env i
                      +:+ "** will not be updated, currently running "
                      +:+ Js.template (currentImageTag i))
  end.

Definition summary (images : list (option GateResult)) : Js.js (list string) :=
  mapM summaryLine images.

Definition newline : string := String "010" EmptyString.

(** Lines 211-215. *)
Definition commentBody (releaseVersion : string) (summary : list string)
  (timestamp : string) : string :=
  "Continuous Deployment Summary for **v" +:+ releaseVersion +:+ "**:"
  +:+ newline +:+ newline
  +:+ Js.join newline summary
  +:+ newline +:+ newline
  +:+ "_Information valid as of " +:+ timestamp +:+ "_".

(** [JSON.stringify] of the array of results (line 224). *)
Module JSON.

Definition quote_mark : string := String "034" EmptyString.

Definition hex_digit (n : N) : ascii :=
  ascii_of_N (if (n <? 10)%N then 48 + n else 87 + n).

(** One character inside a JSON string. *)
Definition escape (c : ascii) : string :=
  let n := N_of_ascii c in
  if (n =? 34)%N then "\" +:+ quote_mark
  else if (n =? 92)%N then "\\"
  else if (n =? 8)%N then "\b"
  else if (n =? 9)%N then "\t"
  else if (n =? 10)%N then "\n"
  else if (n =? 12)%N then "\f"
  else if (n =? 13)%N then "\r"
  else if (n <? 32)%N
       then "\u00" +:+ String (hex_digit (n / 16)) (String (hex_digit (n mod 16)) EmptyString)
  else String c EmptyString.

Fixpoint escape_all (s : string) : string :=
  match s with
  | EmptyString => EmptyString
  | String c rest => escape c +:+ escape_all rest
  end.

Definition quote (s : string) : string :=
  quote_mark +:+ escape_all s +:+ quote_mark.

Definition boolean (b : bool) : string := if b then "true" else "false".

(** A property whose value is [undefined] is left out of the object. *)
Definition property (name : string) (value : option string) : list string :=
  match value with
  | None => []
  | Some v => [quote name +:+ ":" +:+ v]
  end.

Definition gateResult (r : GateResult) : string :=
  "{" +:+ Js.join ","
            (property "env" (Some (quote (env r)))
             ++ property "currentImageTag" (quote <$> currentImageTag r)
             ++ property "releaseVersion" (Some (quote (releaseVersion r)))
             ++ property "willBeReplaced" (Some (boolean (willBeReplaced r))))
      +:+ "}".

(** An array element that is [undefined] is written [null]. *)
Definition element (i : option GateResult) : string :=
  match i with
  | None => "null"
  | Some r => gateResult r
  end.

Definition stringify (images : list (option GateResult)) : string :=
  "[" +:+ Js.join "," (element <$> images) +:+ "]".

End JSON.

Module Inputs.
Record t : Type := {
  event : string;
  releaseVersion : string;
  repository : string;
  clusterName : string;
  serviceName : string;
  devEcsKey : string;
  devEcsSecret : string;
  sandboxEcsKey : string;
  sandboxEcsSecret : string;
  productionEcsKey : string;
  productionEcsSecret : string;
  token : string;
  sha : string;
}.
End Inputs.

(** The request of one [createComment] call (lines 131-145); whether it
    succeeds is only logged. *)
Record Comment : Type := {
  owner : option string;
  repo : option string;
  issue_number : N;
  body : string;
}.

(** What a run leaves behind: [Completed] with the text of the summary, the
    comments requested and the value of [core.setOutput("images", _)];
    [Failed] with the error whose message went to [core.setFailed]; or
    [Pending], when a lookup never settles. *)
Inductive outcome : Type :=
| Completed (body : string) (comments : list Comment) (images : string)
| Failed (e : Js.error)
| Pending.

Section Run.

Context (semver : SemverLib).

Definition options (inputs : Inputs.t) (repoName : option string) : Options.t :=
  {| Options.releaseVersion := Inputs.releaseVersion inputs;
     Options.repoName := repoName;
     Options.clusterName := Inputs.clusterName inputs;
     Options.serviceName := Inputs.serviceName inputs;
     Options.devEcsKey := Inputs.devEcsKey inputs;
     Options.devEcsSecret := Inputs.devEcsSecret inputs;
     Options.sandboxEcsKey := Inputs.sandboxEcsKey inputs;
     Options.sandboxEcsSecret := Inputs.sandboxEcsSecret inputs;
     Options.productionEcsKey := Inputs.productionEcsKey inputs;
     Options.productionEcsSecret := Inputs.productionEcsSecret inputs |}.

(** Lines 203-224, once [deploymentFeedback] has resolved with [images]. *)
Definition report (w : World) (inputs : Inputs.t)
  (owner repoName : option string) (images : list (option GateResult))
  : Js.js (string * list Comment * string) :=
  let* lines := summary images in
  let body := commentBody (Inputs.releaseVersion inputs) lines (now w) in
  let* prs := findPullRequest w (Inputs.token inputs) owner repoName
                (Inputs.sha inputs) in
  Js.Return (body,
             (fun pr => {| owner := owner; repo := repoName;
                           issue_number := number pr; body := body |}) <$> prs,
             JSON.stringify images).

(** Lines 168-228. *)
Definition run (w : World) (order : list nat) (inputs : Inputs.t) : outcome :=
  let parts := Js.split "/" (Inputs.repository inputs) in
  let owner := parts !! 0 in
  let repoName := parts !! 1 in
  match deploymentFeedback semver w order (options inputs repoName) with
  | None => Pending
  | Some images =>
      match report w inputs owner repoName images with
      | Js.Return (body, comments, output) => Completed body comments output
      | Js.Throw e => Failed e
      end
  end.

End Run.

(** ** The spec's wording, for comparison with the code *)

(** Section 6: the tag is the substring following the first [:]. *)
Definition substring_after_first (sep : ascii) (s : string) : option string :=
  snd (NodeSemver.cut sep s).

(** Section 4.3: the two predicates of the decision.  The range check:
    the current tag parses as a semantic version and the normalized
    candidate satisfies the range [comparator ++ tag]. *)
Definition parsesAsSemver (semver : SemverLib) (t : string) : bool :=
  match parse semver t with
  | Some _ => true
  | None => false
  end.

Definition rangeCheck (semver : SemverLib) (comparator t v : string) : bool :=
  parsesAsSemver semver t
  && satisfies semver (Js.replace "-" "+" v) (comparator +:+ t).

(** The [latest] check: the current tag begins with [latest]. *)
Definition latestCheck (t : string) : bool := String.prefix "latest" t.

(** Section 3: an environment is active iff its credentials are present
    and non-empty. *)
Definition isActive (opts : Options.t) (env : string) : bool :=
  match get (ECS opts) env with
  | Some creds => Js.to_boolean (key creds) && Js.to_boolean (secret creds)
  | None => false
  end.

(** Section 4.4, step 1: the environments of the policy table that are
    active. *)
Definition activeEnvs (opts : Options.t) : list string :=
  List.filter (isActive opts) (Object_keys ENV_VERSION_COMPARATOR).

(** Section 4.5: one line per result, a success glyph if [willBeReplaced],
    a failure glyph otherwise, naming the environment and the running tag. *)
Definition glyph (willBeReplaced : bool) : string :=
  if willBeReplaced then "✅" else "❌".

Definition verdict (willBeReplaced : bool) : string :=
  if willBeReplaced then "will be updated" else "will not be updated".

Definition line (r : GateResult) : string :=
  glyph (willBeReplaced r) +:+ " **" +:+ env r +:+ "** "
  +:+ verdict (willBeReplaced r) +:+ ", currently running "
  +:+ Js.template (currentImageTag r).

(** ** Concrete runs *)

Module Scenario.

(** [s] contains [p]: what [new RegExp(p).test(s)] computes for a pattern
    without metacharacters. *)
Fixpoint includes (p s : string) : bool :=
  String.prefix p s
  || match s with
     | EmptyString => false
     | String _ rest => includes p rest
     end.

Definition containers : list string :=
  ["nginx:1.25"; "123456789012.dkr.ecr.eu-north-1.amazonaws.com/api:2.4.1"].

Definition related : list PullRequest :=
  [{| number := 7; state := "open"; base_ref := "main" |};
   {| number := 8; state := "closed"; base_ref := "main" |};
   {| number := 9; state := "open"; base_ref := "develop" |}].

(** Every lookup succeeds. *)
Definition healthy : World :=
  {| ecs := fun _ _ _ _ => EcsContainers containers;
     regexp := fun p => Js.Return (includes (Js.template p));
     pulls := fun _ _ _ _ => Js.Return related;
     now := "2024-01-01T00:00:00.000Z" |}.

(** The lookup of [dev] throws, the other two succeed. *)
Definition dev_down : World :=
  {| ecs := fun _ _ cluster _ =>
              if String.eqb cluster "dev-main"
              then EcsRejects (Js.ExternalError "AccessDeniedException")
              else EcsContainers containers;
     regexp := regexp healthy;
     pulls := pulls healthy;
     now := now healthy |}.

(** The task definition names its image with a registry port. *)
Definition with_port : World :=
  {| ecs := fun _ _ _ _ => EcsContainers ["registry.local:5000/api:2.4.1"];
     regexp := regexp healthy;
     pulls := pulls healthy;
     now := now healthy |}.

Definition inputs : Inputs.t :=
  {| Inputs.event := "push";
     Inputs.releaseVersion := "2.4.2";
     Inputs.repository := "enode/api";
     Inputs.clusterName := "main";
     Inputs.serviceName := "api";
     Inputs.devEcsKey := "AKIADEV";
     Inputs.devEcsSecret := "dev-secret";
     Inputs.sandboxEcsKey := "AKIASANDBOX";
     Inputs.sandboxEcsSecret := "sandbox-secret";
     Inputs.productionEcsKey := "AKIAPRODUCTION";
     Inputs.productionEcsSecret := "production-secret";
     Inputs.token := "ghs_token";
     Inputs.sha := "0a1b2c3" |}.

(** The inputs of a run that was given no [dev] credentials:
    [core.getInput] returns the empty string for them. *)
Definition inputs_without_dev : Inputs.t :=
  {| Inputs.event := "push";
     Inputs.releaseVersion := "2.4.2";
     Inputs.repository := "enode/api";
     Inputs.clusterName := "main";
     Inputs.serviceName := "api";
     Inputs.devEcsKey := EmptyString;
     Inputs.devEcsSecret := EmptyString;
     Inputs.sandboxEcsKey := "AKIASANDBOX";
     Inputs.sandboxEcsSecret := "sandbox-secret";
     Inputs.productionEcsKey := "AKIAPRODUCTION";
     Inputs.productionEcsSecret := "production-secret";
     Inputs.token := "ghs_token";
     Inputs.sha := "0a1b2c3" |}.

Definition opts : Options.t := options inputs (Some "api").
Definition opts_without_dev : Options.t := options inputs_without_dev (Some "api").

(** [production] settles first, then [dev], then [sandbox]. *)
Definition order : list nat := [2; 0; 1]%nat.

End Scenario.

(** ** Further worlds *)

Module Cases.

(** Three containers, two of which name the repository. *)
Definition two_matches : World :=
  {| ecs := fun _ _ _ _ =>
              EcsContainers
                ["nginx:1.25";
                 "123456789012.dkr.ecr.eu-north-1.amazonaws.com/api:2.4.1";
                 "mirror.local/api:9.9.9"];
     regexp := regexp Scenario.healthy;
     pulls := pulls Scenario.healthy;
     now := now Scenario.healthy |}.

(** The image is named without a tag. *)
Definition untagged : World :=
  {| ecs := fun _ _ _ _ => EcsContainers ["nginx:1.25"; "internal/api"];
     regexp := regexp Scenario.healthy;
     pulls := pulls Scenario.healthy;
     now := now Scenario.healthy |}.

(** The image follows a floating tag. *)
Definition floating : World :=
  {| ecs := fun _ _ _ _ => EcsContainers ["internal/api:latest-0a1b2c3"];
     regexp := regexp Scenario.healthy;
     pulls := pulls Scenario.healthy;
     now := now Scenario.healthy |}.

(** No container names the repository. *)
Definition unrelated : World :=
  {| ecs := fun _ _ _ _ => EcsContainers ["nginx:1.25"; "redis:7"];
     regexp := regexp Scenario.healthy;
     pulls := pulls Scenario.healthy;
     now := now Scenario.healthy |}.

(** The repository name is not a valid pattern. *)
Definition bad_pattern : World :=
  {| ecs := ecs Scenario.healthy;
     regexp := fun p =>
                 Js.Throw (Js.SyntaxError_invalid_regexp (Js.template p));
     pulls := pulls Scenario.healthy;
     now := now Scenario.healthy |}.

(** The lookups succeed, the pull request listing rejects. *)
Definition github_down : World :=
  {| ecs := ecs Scenario.healthy;
     regexp := regexp Scenario.healthy;
     pulls := fun _ _ _ _ => Js.Throw (Js.ExternalError "Bad credentials");
     now := now Scenario.healthy |}.

(** [new RegExp(undefined)] matches every string. *)
Definition any_pattern : World :=
  {| ecs := ecs Scenario.healthy;
     regexp := fun p => match p with
                        | None => Js.Return (fun _ => true)
                        | Some s => Js.Return (Scenario.includes s)
                        end;
     pulls := pulls Scenario.healthy;
     now := now Scenario.healthy |}.

(** The repository is given without its owner. *)
Definition inputs_bare : Inputs.t :=
  {| Inputs.event := "push";
     Inputs.releaseVersion := "2.4.2";
     Inputs.repository := "api";
     Inputs.clusterName := "main";
     Inputs.serviceName := "api";
     Inputs.devEcsKey := "AKIADEV";
     Inputs.devEcsSecret := "dev-secret";
     Inputs.sandboxEcsKey := "AKIASANDBOX";
     Inputs.sandboxEcsSecret := "sandbox-secret";
     Inputs.productionEcsKey := "AKIAPRODUCTION";
     Inputs.productionEcsSecret := "production-secret";
     Inputs.token := "ghs_token";
     Inputs.sha := "0a1b2c3" |}.

(** [dev] never settles. *)
Definition order_without_dev : list nat := [2; 1]%nat.

End Cases.

(** * Properties *)

(** ** Strings *)

Section Strings.

Implicit Types (s a b : string) (c sep : ascii).

Lemma app_cons d a b : String d a +:+ b = String d (a +:+ b).
Proof. reflexivity. Qed.

Lemma app_nil b : EmptyString +:+ b = b.
Proof. reflexivity. Qed.

Lemma occurs_cons_false c d s :
  Js.occurs c (String d s) = false -> Ascii.eqb d c = false /\ Js.occurs c s = false.
Proof. simpl. apply orb_false_iff. Qed.

Lemma replace_absent c rep s :
  Js.occurs c s = false -> Js.replace c rep s = s.
Proof.
  induction s as [|d s IH]; [reflexivity|].
  intros [Hd Hs]%occurs_cons_false. simpl. rewrite Hd. f_equal. exact (IH Hs).
Qed.

Lemma replace_first c rep a b :
  Js.occurs c a = false ->
  Js.replace c rep (a +:+ String c b) = a +:+ rep +:+ b.
Proof.
  induction a as [|d a IH]; rewrite ?app_cons, ?app_nil; simpl.
  - intros _. rewrite Ascii.eqb_refl. reflexivity.
  - intros [Hd Ha]%orb_false_iff. rewrite Hd. f_equal. exact (IH Ha).
Qed.

Lemma split_absent sep s :
  Js.occurs sep s = false -> Js.split sep s = [s].
Proof.
  induction s as [|d s IH]; [reflexivity|].
  intros [Hd Hs]%occurs_cons_false. simpl. rewrite Hd, (IH Hs). reflexivity.
Qed.

Lemma split_first sep a b :
  Js.occurs sep a = false ->
  Js.split sep (a +:+ String sep b) = a :: Js.split sep b.
Proof.
  induction a as [|d a IH]; rewrite ?app_cons, ?app_nil; simpl.
  - intros _. rewrite Ascii.eqb_refl. reflexivity.
  - intros [Hd Ha]%orb_false_iff. rewrite Hd, (IH Ha). reflexivity.
Qed.

Lemma split_not_nil sep s : Js.split sep s <> [].
Proof.
  destruct s as [|d s]; simpl; [discriminate|].
  destruct (Ascii.eqb d sep); [discriminate|].
  destruct (Js.split sep s); discriminate.
Qed.

Lemma cut_first sep a b :
  Js.occurs sep a = false ->
  NodeSemver.cut sep (a +:+ String sep b) = (a, Some b).
Proof.
  induction a as [|d a IH]; rewrite ?app_cons, ?app_nil; simpl.
  - intros _. rewrite Ascii.eqb_refl. reflexivity.
  - intros [Hd Ha]%orb_false_iff. rewrite Hd, (IH Ha). reflexivity.
Qed.

Lemma app_assoc_string a b1 b2 : (a +:+ b1) +:+ b2 = a +:+ b1 +:+ b2.
Proof.
  induction a as [|d a IH]; rewrite ?app_cons, ?app_nil; [reflexivity|].
  f_equal. exact IH.
Qed.

End Strings.

(** C5.  The tag normalizer rewrites only the first [-] to [+]: an input
    [a] without [-] comes back unchanged, so normalizing it twice is
    normalizing it once; ["1.2.3-rc1"] becomes ["1.2.3+rc1"]; and in
    [a-b] everything after the first [-], other [-] included, is kept. *)
Theorem tagAsBuild_first_dash_only (a b : string) :
  Js.occurs "-" a = false ->
  tagAsBuild a = a
  /\ tagAsBuild (tagAsBuild a) = tagAsBuild a
  /\ tagAsBuild "1.2.3-rc1" = "1.2.3+rc1"
  /\ tagAsBuild (a +:+ "-" +:+ b) = a +:+ "+" +:+ b.
Proof.
  intros Ha. unfold tagAsBuild.
  rewrite (replace_absent _ _ _ Ha).
  repeat split; [exact (replace_absent _ _ _ Ha)|].
  exact (replace_first "-" "+" a b Ha).
Qed.

Lemma tagAsBuild_first_dash_only_witness :
  Js.occurs "-" "1.2.3" = false
  /\ tagAsBuild "1.2.3" = "1.2.3"
  /\ tagAsBuild (tagAsBuild "1.2.3") = tagAsBuild "1.2.3"
  /\ tagAsBuild "1.2.3-rc1" = "1.2.3+rc1"
  /\ tagAsBuild ("1.2.3" +:+ "-" +:+ "rc-1") = "1.2.3" +:+ "+" +:+ "rc-1".
Proof.
  split; [reflexivity|].
  apply (tagAsBuild_first_dash_only "1.2.3" "rc-1"). reflexivity.
Defined.

(** ** The image tag *)

Lemma split_head sep s :
  Js.split sep s !! 0%nat = Some (fst (NodeSemver.cut sep s)).
Proof.
  induction s as [|d s IH]; simpl; [reflexivity|].
  destruct (Ascii.eqb d sep); [reflexivity|].
  destruct (Js.split sep s) as [|h t], (NodeSemver.cut sep s) as [before after];
    simpl in *; congruence.
Qed.

(** The second segment of [split] is what follows the first separator,
    up to the next one. *)
Lemma split_second sep s :
  Js.split sep s !! 1%nat
  = (fun rest => fst (NodeSemver.cut sep rest)) <$> snd (NodeSemver.cut sep s).
Proof.
  induction s as [|d s IH]; simpl; [reflexivity|].
  destruct (Ascii.eqb d sep).
  - simpl. apply split_head.
  - pose proof (split_not_nil sep s) as Hnil.
    destruct (Js.split sep s) as [|h t]; [congruence|].
    destruct (NodeSemver.cut sep s) as [before after]. exact IH.
Qed.

Lemma getCurrentImage_tag w env key secret repoName cluster service img :
  getCurrentImage w env key secret repoName cluster service = Js.Return img ->
  tag img = Js.split ":" (image img) !! 1%nat.
Proof.
  unfold getCurrentImage.
  destruct (ecs w key secret cluster service); [discriminate|].
  destruct (find_container w repoName images) as [[c|]|]; simpl;
    [|discriminate..].
  intros [= <-]. reflexivity.
Qed.

(** C7, as amended.  The extracted tag is the part of the image reference
    between its first [:] and its next [:] (the end of the reference when
    there is no second [:]), and it is [undefined] when the reference has no
    [:].  So for a reference [a:b] with exactly one [:] the tag is [b], all
    that follows the [:]. *)
Theorem tag_is_second_segment w env key secret repoName cluster service img :
  getCurrentImage w env key secret repoName cluster service = Js.Return img ->
  tag img
  = (fun rest => fst (NodeSemver.cut ":" rest))
      <$> substring_after_first ":" (image img)
  /\ (forall a b, Js.occurs ":" a = false -> Js.occurs ":" b = false ->
        image img = a +:+ ":" +:+ b ->
        tag img = Some b /\ tag img = substring_after_first ":" (image img))
  /\ (forall a b rest, Js.occurs ":" a = false -> Js.occurs ":" b = false ->
        image img = a +:+ ":" +:+ b +:+ ":" +:+ rest -> tag img = Some b)
  /\ (Js.occurs ":" (image img) = false -> tag img = None).
Proof.
  intros ->%getCurrentImage_tag. split; [apply split_second|].
  split; [|split].
  - intros a b Ha Hb ->. unfold substring_after_first.
    change (":" +:+ b) with (String ":" b).
    rewrite (split_first _ _ _ Ha), (cut_first _ _ _ Ha), (split_absent _ _ Hb).
    split; reflexivity.
  - intros a b rest Ha Hb ->.
    change (":" +:+ b +:+ ":" +:+ rest) with (String ":" (b +:+ String ":" rest)).
    rewrite (split_first _ _ _ Ha), (split_first _ _ _ Hb). reflexivity.
  - intros H. rewrite (split_absent _ _ H). reflexivity.
Qed.

Lemma tag_is_second_segment_witness :
  exists img,
    getCurrentImage Scenario.with_port "dev" "AKIADEV" "dev-secret"
      (Some "api") "dev-main" "dev-api" = Js.Return img
    /\ tag img
       = (fun rest => fst (NodeSemver.cut ":" rest))
           <$> substring_after_first ":" (image img).
Proof.
  eexists. split; [reflexivity|].
  exact (proj1 (tag_is_second_segment Scenario.with_port "dev" "AKIADEV"
                  "dev-secret" (Some "api") "dev-main" "dev-api" _ eq_refl)).
Defined.

(** C7 as stated fails: for the reference [registry.local:5000/api:2.4.1]
    what follows the first [:] is [5000/api:2.4.1], and the extracted tag is
    [5000/api]. *)
Lemma tag_after_first_colon_counterexample :
  exists img,
    getCurrentImage Scenario.with_port "dev" "AKIADEV" "dev-secret"
      (Some "api") "dev-main" "dev-api" = Js.Return img
    /\ image img = "registry.local:5000/api:2.4.1"
    /\ substring_after_first ":" (image img) = Some "5000/api:2.4.1"
    /\ tag img = Some "5000/api"
    /\ tag img <> substring_after_first ":" (image img).
Proof.
  eexists. split; [reflexivity|]. simpl. repeat split. discriminate.
Qed.

(** ** The gate *)

(** C1.  For an environment of the policy table with comparator [cmp], a
    current tag [t] and a candidate [v], [willBeReplaced] is the OR of the
    range check (t parses as a semantic version and the normalized candidate
    satisfies [cmp ++ t]) and the [latest] check (t begins with [latest]);
    so a tag that fails both gives [false], whatever the policy and the
    candidate.  This holds for every implementation of the semver
    interface. *)
Theorem gate_is_or_of_checks (semver : SemverLib) (env cmp t v : string) :
  get ENV_VERSION_COMPARATOR env = Some cmp ->
  gate semver env (Some t) v = rangeCheck semver cmp t v || latestCheck t
  /\ (parsesAsSemver semver t = false -> latestCheck t = false ->
      gate semver env (Some t) v = false).
Proof.
  intros Hcmp.
  assert (gate semver env (Some t) v = rangeCheck semver cmp t v || latestCheck t)
    as Hgate.
  { unfold gate, rangeCheck, parsesAsSemver, latestCheck, tagAsBuild,
      semver_parse, Js.starts_with.
    rewrite Hcmp. simpl.
    destruct (parse semver t); simpl;
      [destruct (satisfies semver _ _); simpl|];
      destruct (String.prefix "latest" t); reflexivity. }
  split; [exact Hgate|].
  intros Hparse Hlatest. rewrite Hgate. unfold rangeCheck.
  rewrite Hparse, Hlatest. reflexivity.
Qed.

Lemma gate_is_or_of_checks_witness :
  (gate NodeSemver.lib "production" (Some "2.4.1") "2.4.2-rc1"
   = rangeCheck NodeSemver.lib "~" "2.4.1" "2.4.2-rc1" || latestCheck "2.4.1")
  /\ gate NodeSemver.lib "sandbox" (Some "abc123") "2.4.2" = false.
Proof.
  split.
  - apply (gate_is_or_of_checks NodeSemver.lib "production" "~" "2.4.1" "2.4.2-rc1").
    reflexivity.
  - apply (gate_is_or_of_checks NodeSemver.lib "sandbox" "^" "abc123" "2.4.2");
      reflexivity.
Defined.

(** C4.  With the policy table dev [>=], sandbox [^], production [~]:
    production 2.4.1 -> 2.4.2 is replaced; production 2.4.1 -> 2.5.0,
    sandbox 2.4.1 -> 3.0.0 and dev 2.4.1 -> 1.9.9 are not. *)
Theorem gate_scenarios :
  ENV_VERSION_COMPARATOR = [("dev", ">="); ("sandbox", "^"); ("production", "~")]
  /\ gate NodeSemver.lib "production" (Some "2.4.1") "2.4.2" = true
  /\ gate NodeSemver.lib "production" (Some "2.4.1") "2.5.0" = false
  /\ gate NodeSemver.lib "sandbox" (Some "2.4.1") "3.0.0" = false
  /\ gate NodeSemver.lib "dev" (Some "2.4.1") "1.9.9" = false.
Proof. repeat split; vm_compute; reflexivity. Qed.

(** ** Promise.all *)

Section PromiseAll.

Context {A : Type}.
Implicit Types (values : list A) (order : list nat) (slots : list (option A)).

Lemma fill_length values order slots :
  length (foldl (fun slots i => <[i := values !! i]> slots) slots order)
  = length slots.
Proof.
  revert slots. induction order as [|i order IH]; intros slots; simpl;
    [reflexivity|].
  rewrite IH. apply length_insert.
Qed.

(** A position holds the value of its promise once that promise has
    settled, and is untouched by the others. *)
Lemma fill_lookup values order slots j :
  j < length slots ->
  foldl (fun slots i => <[i := values !! i]> slots) slots order !! j
  = if decide (j ∈ order) then Some (values !! j) else slots !! j.
Proof.
  revert slots.
  induction order as [|i order IH]; intros slots Hj.
  - rewrite decide_False; [reflexivity|apply not_elem_of_nil].
  - change (foldl ?f slots (i :: order)) with (foldl f (f slots i) order).
    rewrite IH by (by rewrite length_insert).
    destruct (decide (j = i)) as [->|Hne].
    + rewrite list_lookup_insert_eq by done.
      rewrite (decide_True (P := i ∈ i :: order))
        by (apply elem_of_cons; by left).
      destruct (decide (i ∈ order)); reflexivity.
    + rewrite list_lookup_insert_ne by done.
      destruct (decide (j ∈ order)) as [Hin|Hin].
      * rewrite decide_True by (apply elem_of_cons; by right). reflexivity.
      * rewrite decide_False by (by apply not_elem_of_cons). reflexivity.
Qed.

Lemma settle_all values order :
  order ≡ₚ seq 0 (length values) -> settle order values = Some <$> values.
Proof.
  intros Hperm. apply list_eq. intros j. unfold settle.
  rewrite list_lookup_fmap.
  destruct (decide (j < length values)) as [Hlt|Hge].
  - rewrite fill_lookup by (by rewrite length_replicate).
    rewrite decide_True; [|rewrite Hperm; apply elem_of_seq; lia].
    destruct (lookup_lt_is_Some_2 values j Hlt) as [v ->]. reflexivity.
  - rewrite !(lookup_ge_None_2 _ j); [reflexivity|lia|].
    rewrite fill_length, length_replicate. lia.
Qed.

Lemma mapM_id_Some (l : list A) : mapM id (Some <$> l) = Some l.
Proof.
  apply mapM_Some_2. induction l as [|x l IH]; csimpl; by constructor.
Qed.

(** Whatever the order in which the promises settle, [Promise.all]
    resolves with the values in the order of the array. *)
Lemma Promise_all_settled values order :
  order ≡ₚ seq 0 (length values) -> Promise_all order values = Some values.
Proof.
  intros Hperm. unfold Promise_all. rewrite (settle_all _ _ Hperm).
  apply mapM_id_Some.
Qed.

End PromiseAll.

(** ** The orchestrator *)

Lemma envs_all (opts : Options.t) : envs opts = ["dev"; "sandbox"; "production"].
Proof. reflexivity. Qed.

Lemma order_complete (opts : Options.t) :
  Scenario.order ≡ₚ seq 0 (length (envs opts)).
Proof.
  rewrite envs_all. unfold Scenario.order. simpl.
  etrans; [apply perm_swap|]. apply perm_skip, perm_swap.
Defined.

Lemma attempt_env semver w opts e r :
  attempt semver w opts e = Js.Return r -> env r = e.
Proof.
  unfold attempt. destruct (get (ECS opts) e); simpl; [|discriminate].
  destruct (getCurrentImage _ _ _ _ _ _ _); simpl; [|discriminate].
  intros [= <-]. reflexivity.
Qed.

Lemma deploymentFeedback_settled semver w order opts :
  order ≡ₚ seq 0 (length (envs opts)) ->
  deploymentFeedback semver w order opts
  = Some (envFeedback semver w opts <$> envs opts).
Proof.
  intros Hperm. unfold deploymentFeedback. apply Promise_all_settled.
  by rewrite length_fmap.
Qed.

(** Once every lookup has settled, in whatever order, the list has one
    entry per environment of [envs], in the order of the policy table (dev,
    sandbox, production): its i-th entry is the outcome of the i-th
    environment, and a result found there carries that environment's name. *)
Lemma settled_in_policy_table_order semver w order opts :
  order ≡ₚ seq 0 (length (envs opts)) ->
  exists images,
    deploymentFeedback semver w order opts = Some images
    /\ envs opts = Object_keys ENV_VERSION_COMPARATOR
    /\ Object_keys ENV_VERSION_COMPARATOR = ["dev"; "sandbox"; "production"]
    /\ length images = length (envs opts)
    /\ forall i e, envs opts !! i = Some e ->
         images !! i = Some (envFeedback semver w opts e)
         /\ forall r, images !! i = Some (Some r) -> env r = e.
Proof.
  intros Hperm. eexists. split; [by apply deploymentFeedback_settled|].
  split; [reflexivity|]. split; [reflexivity|].
  split; [by rewrite length_fmap|].
  intros i e Hi. rewrite list_lookup_fmap, Hi. split; [reflexivity|].
  intros r [= Hr]. unfold envFeedback in Hr.
  destruct (attempt semver w opts e) eqn:Ha; [|discriminate].
  injection Hr as ->. by eapply attempt_env.
Qed.

(** ** The summary *)

Lemma summary_cons i images :
  summary (i :: images)
  = (let* l := summaryLine i in
     let* rest := summary images in
     Js.Return (l :: rest)).
Proof. reflexivity. Qed.

Lemma summaryLine_result r : summaryLine (Some r) = Js.Return (line r).
Proof. unfold summaryLine, line. destruct (willBeReplaced r); reflexivity. Qed.

(** With every entry a result, the summary has the line of each. *)
Lemma summary_results (results : list GateResult) :
  summary (Some <$> results) = Js.Return (line <$> results).
Proof.
  induction results as [|r results IH]; [reflexivity|].
  rewrite !fmap_cons, summary_cons, summaryLine_result, IH. reflexivity.
Qed.

(** With an [undefined] entry, building the summary throws. *)
Lemma summary_undefined (images : list (option GateResult)) :
  None ∈ images ->
  summary images = Js.Throw (Js.TypeError_property_of_undefined "willBeReplaced").
Proof.
  induction images as [|i images IH]; intros Hin.
  - by apply elem_of_nil in Hin.
  - rewrite summary_cons. destruct i as [r|]; [|reflexivity].
    rewrite summaryLine_result.
    apply elem_of_cons in Hin as [Hin|Hin]; [discriminate|].
    rewrite (IH Hin). reflexivity.
Qed.

Lemma summary_Return_inv images lines :
  summary images = Js.Return lines ->
  exists results, images = Some <$> results /\ lines = line <$> results.
Proof.
  revert lines. induction images as [|i images IH]; intros lines.
  - intros [= <-]. by exists [].
  - rewrite summary_cons. destruct i as [r|]; [|discriminate].
    rewrite summaryLine_result. simpl.
    destruct (summary images) as [rest|] eqn:Hrest; [|discriminate].
    intros [= <-]. destruct (IH rest eq_refl) as (results & -> & ->).
    by exists (r :: results).
Qed.

Lemma run_completed_inv semver w order inputs body comments output :
  run semver w order inputs = Completed body comments output ->
  exists results,
    deploymentFeedback semver w order
      (options inputs (Js.split "/" (Inputs.repository inputs) !! 1%nat))
    = Some (Some <$> results)
    /\ body = commentBody (Inputs.releaseVersion inputs) (line <$> results) (now w)
    /\ output = JSON.stringify (Some <$> results).
Proof.
  unfold run. destruct (deploymentFeedback _ _ _ _) as [images|]; [|discriminate].
  unfold report. destruct (summary images) as [lines|] eqn:Hsum; [|discriminate].
  destruct (summary_Return_inv _ _ Hsum) as (results & -> & ->). simpl.
  destruct (findPullRequest _ _ _ _ _); [|discriminate].
  intros [= <- _ <-]. by exists results.
Qed.

Lemma run_failed_on_undefined semver w order inputs images :
  deploymentFeedback semver w order
    (options inputs (Js.split "/" (Inputs.repository inputs) !! 1%nat))
  = Some images ->
  None ∈ images ->
  run semver w order inputs
  = Failed (Js.TypeError_property_of_undefined "willBeReplaced").
Proof.
  intros Hdf Hin. unfold run. rewrite Hdf. unfold report.
  rewrite (summary_undefined _ Hin). reflexivity.
Qed.

(** For a report that holds results only, the summary has one line per
    result, in order; the line begins with the success glyph when
    [willBeReplaced] is true and with the failure glyph otherwise, and names
    the result's environment and running tag.  Every completed run posts
    these lines between the header and the footer. *)
Lemma summary_of_results (results : list GateResult)
  (release timestamp : string) :
  summary (Some <$> results) = Js.Return (line <$> results)
  /\ length (line <$> results) = length results
  /\ (forall i r, results !! i = Some r ->
        (line <$> results) !! i
        = Some (glyph (willBeReplaced r) +:+ " **" +:+ env r +:+ "** "
                +:+ verdict (willBeReplaced r) +:+ ", currently running "
                +:+ Js.template (currentImageTag r)))
  /\ commentBody release (line <$> results) timestamp
     = ("Continuous Deployment Summary for **v" +:+ release +:+ "**:")
       +:+ newline +:+ newline
       +:+ Js.join newline (line <$> results)
       +:+ newline +:+ newline
       +:+ ("_Information valid as of " +:+ timestamp +:+ "_")
  /\ (forall semver w order inputs body comments output,
        run semver w order inputs = Completed body comments output ->
        exists results',
          deploymentFeedback semver w order
            (options inputs (Js.split "/" (Inputs.repository inputs) !! 1%nat))
          = Some (Some <$> results')
          /\ body = commentBody (Inputs.releaseVersion inputs)
                      (line <$> results') (now w)).
Proof.
  split; [apply summary_results|].
  split; [apply length_fmap|].
  split; [intros i r Hi; rewrite list_lookup_fmap, Hi; reflexivity|].
  split.
  - unfold commentBody. rewrite !app_assoc_string. reflexivity.
  - intros semver w order inputs body comments output Hrun.
    destruct (run_completed_inv _ _ _ _ _ _ _ Hrun) as (results' & H1 & H2 & _).
    by exists results'.
Qed.

(** ** Pull requests *)

Lemma filter_filter {A} (f g : A -> bool) (l : list A) :
  List.filter g (List.filter f l) = List.filter (fun x => f x && g x) l.
Proof.
  induction l as [|x l IH]; simpl; [reflexivity|].
  destruct (f x); simpl; [destruct (g x)|]; by rewrite IH.
Qed.

Lemma mainPrs_spec (relatedPulls : list PullRequest) (pr : PullRequest) :
  pr ∈ mainPrs relatedPulls
  <-> pr ∈ relatedPulls /\ state pr = "open" /\ base_ref pr = "main".
Proof.
  unfold mainPrs, openPrs.
  rewrite !list_elem_of_In, !filter_In, !String.eqb_eq. tauto.
Qed.

(** C9.  When the request succeeds, PR discovery returns exactly the
    associated pull requests whose state is [open] and whose base ref is
    [main], in their order, hence the empty list when none matches; and the
    condition [if (mainPrs)] holds for every array, so its [else] branch is
    never taken. *)
Theorem findPullRequest_open_to_main w token owner repo sha relatedPulls :
  pulls w token owner repo sha = Js.Return relatedPulls ->
  findPullRequest w token owner repo sha
  = Js.Return (List.filter (fun pr => String.eqb (state pr) "open"
                                      && String.eqb (base_ref pr) "main")
                 relatedPulls)
  /\ (forall prs pr, findPullRequest w token owner repo sha = Js.Return prs ->
        pr ∈ prs
        <-> pr ∈ relatedPulls /\ state pr = "open" /\ base_ref pr = "main")
  /\ ((forall pr, pr ∈ relatedPulls ->
         ~ (state pr = "open" /\ base_ref pr = "main")) ->
      findPullRequest w token owner repo sha = Js.Return [])
  /\ (forall prs : list PullRequest, Js.to_boolean prs = true).
Proof.
  intros Hpulls.
  assert (findPullRequest w token owner repo sha
          = Js.Return (mainPrs relatedPulls)) as Hfind.
  { unfold findPullRequest. rewrite Hpulls. reflexivity. }
  split; [|split; [|split]].
  - rewrite Hfind. unfold mainPrs, openPrs. by rewrite filter_filter.
  - intros prs pr. rewrite Hfind. intros [= <-]. apply mainPrs_spec.
  - intros Hnone. rewrite Hfind. f_equal.
    apply elem_of_nil_inv. intros pr Hin.
    apply mainPrs_spec in Hin as (Hin & Hopen & Hmain). by apply (Hnone pr).
  - reflexivity.
Qed.

Lemma findPullRequest_open_to_main_witness :
  findPullRequest Scenario.healthy "ghs_token" (Some "enode") (Some "api")
    "0a1b2c3"
  = Js.Return [{| number := 7; state := "open"; base_ref := "main" |}].
Proof.
  exact (proj1 (findPullRequest_open_to_main Scenario.healthy "ghs_token"
                  (Some "enode") (Some "api") "0a1b2c3" Scenario.related
                  eq_refl)).
Defined.

(** ** Failures of a lookup *)

(** C3.  The filter of line 82 tests the object [ECS[env]], which is
    there whatever the credentials hold: with the [dev] key and secret
    empty, [dev] is still among the environments looked up and still has its
    entry in the report, and so it is for every input. *)
Theorem envs_keeps_env_without_credentials :
  Options.devEcsKey Scenario.opts_without_dev = EmptyString
  /\ Options.devEcsSecret Scenario.opts_without_dev = EmptyString
  /\ hasCredentials Scenario.opts_without_dev "dev" = true
  /\ envs Scenario.opts_without_dev = ["dev"; "sandbox"; "production"]
  /\ deploymentFeedback NodeSemver.lib Scenario.healthy Scenario.order
       Scenario.opts_without_dev
     = Some [Some {| env := "dev"; currentImageTag := Some "2.4.1";
                     releaseVersion := "2.4.2"; willBeReplaced := true |};
             Some {| env := "sandbox"; currentImageTag := Some "2.4.1";
                     releaseVersion := "2.4.2"; willBeReplaced := true |};
             Some {| env := "production"; currentImageTag := Some "2.4.1";
                     releaseVersion := "2.4.2"; willBeReplaced := true |}]
  /\ (forall opts, envs opts = Object_keys ENV_VERSION_COMPARATOR).
Proof. repeat split; vm_compute; reflexivity. Qed.

(** C2.  With the lookup of [dev] throwing and the other two succeeding,
    [deploymentFeedback] resolves with [undefined] for [dev] and the two
    results; building the summary then reads a property of [undefined], and
    the run ends in [core.setFailed]: no summary, no comment, no output.
    The same run with every lookup succeeding completes. *)
Theorem lookup_failure_fails_run :
  deploymentFeedback NodeSemver.lib Scenario.dev_down Scenario.order
    Scenario.opts
  = Some [None;
          Some {| env := "sandbox"; currentImageTag := Some "2.4.1";
                  releaseVersion := "2.4.2"; willBeReplaced := true |};
          Some {| env := "production"; currentImageTag := Some "2.4.1";
                  releaseVersion := "2.4.2"; willBeReplaced := true |}]
  /\ run NodeSemver.lib Scenario.dev_down Scenario.order Scenario.inputs
     = Failed (Js.TypeError_property_of_undefined "willBeReplaced")
  /\ (exists body comments output,
        run NodeSemver.lib Scenario.healthy Scenario.order Scenario.inputs
        = Completed body comments output).
Proof.
  split; [vm_compute; reflexivity|]. split; [vm_compute; reflexivity|].
  do 3 eexists. vm_compute. reflexivity.
Qed.

(** C10.  When the lookup of the i-th environment throws, the list that
    [deploymentFeedback] resolves with holds [undefined] at position i and
    has one entry per environment; [JSON.stringify] writes such an entry as
    [null].  The run does not get that far: it fails while building the
    summary, before [core.setOutput]. *)
Theorem failed_lookup_leaves_undefined semver w order inputs i e err :
  order ≡ₚ seq 0 (length (envs
             (options inputs (Js.split "/" (Inputs.repository inputs) !! 1%nat)))) ->
  envs (options inputs (Js.split "/" (Inputs.repository inputs) !! 1%nat)) !! i
  = Some e ->
  attempt semver w
    (options inputs (Js.split "/" (Inputs.repository inputs) !! 1%nat)) e
  = Js.Throw err ->
  exists images,
    deploymentFeedback semver w order
      (options inputs (Js.split "/" (Inputs.repository inputs) !! 1%nat))
    = Some images
    /\ images !! i = Some None
    /\ length images
       = length (envs (options inputs
                         (Js.split "/" (Inputs.repository inputs) !! 1%nat)))
    /\ JSON.element <$> images !! i = Some "null"
    /\ run semver w order inputs
       = Failed (Js.TypeError_property_of_undefined "willBeReplaced").
Proof.
  set (opts := options inputs _). intros Hperm Hi Hthrow.
  pose proof (deploymentFeedback_settled semver w order opts Hperm) as Hdf.
  assert ((envFeedback semver w opts <$> envs opts) !! i = Some None) as Hnone.
  { rewrite list_lookup_fmap, Hi. simpl. unfold envFeedback.
    by rewrite Hthrow. }
  eexists. split; [exact Hdf|]. split; [exact Hnone|].
  split; [apply length_fmap|]. split; [by rewrite Hnone|].
  apply (run_failed_on_undefined _ _ _ _ _ Hdf).
  by eapply list_elem_of_lookup_2.
Qed.

Lemma failed_lookup_leaves_undefined_witness :
  exists images,
    deploymentFeedback NodeSemver.lib Scenario.dev_down Scenario.order
      Scenario.opts = Some images
    /\ images !! 0%nat = Some None
    /\ length images = length (envs Scenario.opts)
    /\ JSON.element <$> images !! 0%nat = Some "null"
    /\ run NodeSemver.lib Scenario.dev_down Scenario.order Scenario.inputs
       = Failed (Js.TypeError_property_of_undefined "willBeReplaced").
Proof.
  apply (failed_lookup_leaves_undefined NodeSemver.lib Scenario.dev_down
           Scenario.order Scenario.inputs 0%nat "dev"
           (Js.ExternalError "AccessDeniedException")).
  - exact (order_complete Scenario.opts).
  - reflexivity.
  - vm_compute. reflexivity.
Defined.

(** C6.  The list of [deploymentFeedback] is not one entry per active
    environment: when the [dev] key is empty, [dev] is not active, yet once
    the lookups have settled, in whatever order, the list has three entries
    and its first is the outcome of [dev], so it is longer than the list of
    active environments and its i-th entry is not that of the i-th active
    one.  The entries do follow the policy table: the i-th is the outcome of
    the i-th key. *)
Theorem report_has_entry_for_inactive_env semver w order opts :
  order ≡ₚ seq 0 (length (envs opts)) ->
  Options.devEcsKey opts = EmptyString ->
  exists images,
    deploymentFeedback semver w order opts = Some images
    /\ ("dev" ∉ activeEnvs opts)
    /\ images !! 0%nat = Some (envFeedback semver w opts "dev")
    /\ length images = 3%nat
    /\ length (activeEnvs opts) < length images
    /\ forall i e, Object_keys ENV_VERSION_COMPARATOR !! i = Some e ->
         images !! i = Some (envFeedback semver w opts e).
Proof.
  intros Hperm Hkey.
  assert (isActive opts "dev" = false) as Hdev.
  { unfold isActive. simpl. by rewrite Hkey. }
  assert (activeEnvs opts
          = List.filter (isActive opts) ["sandbox"; "production"]) as Hactive.
  { unfold activeEnvs. simpl. by rewrite Hdev. }
  eexists. split; [by apply deploymentFeedback_settled|].
  split; [|split; [reflexivity|split; [reflexivity|split]]].
  - rewrite Hactive, list_elem_of_In, filter_In.
    intros [[Hin|[Hin|[]]] _]; discriminate.
  - rewrite Hactive. simpl.
    destruct (isActive opts "sandbox"), (isActive opts "production");
      simpl; lia.
  - intros i e Hi. rewrite list_lookup_fmap.
    change (envs opts) with (Object_keys ENV_VERSION_COMPARATOR).
    by rewrite Hi.
Qed.

Lemma report_has_entry_for_inactive_env_witness :
  exists images,
    deploymentFeedback NodeSemver.lib Scenario.healthy Scenario.order
      Scenario.opts_without_dev = Some images
    /\ ("dev" ∉ activeEnvs Scenario.opts_without_dev)
    /\ images !! 0%nat
       = Some (envFeedback NodeSemver.lib Scenario.healthy
                 Scenario.opts_without_dev "dev")
    /\ length images = 3%nat
    /\ length (activeEnvs Scenario.opts_without_dev) < length images
    /\ forall i e, Object_keys ENV_VERSION_COMPARATOR !! i = Some e ->
         images !! i
         = Some (envFeedback NodeSemver.lib Scenario.healthy
                   Scenario.opts_without_dev e).
Proof.
  apply (report_has_entry_for_inactive_env NodeSemver.lib Scenario.healthy
           Scenario.order Scenario.opts_without_dev).
  - exact (order_complete Scenario.opts_without_dev).
  - reflexivity.
Defined.

(** C8.  Results of the report get no line when an entry beside them is
    [undefined]: building the summary throws, whatever results the list
    holds.  With the lookup of [dev] throwing, the report holds the results
    of sandbox and production, and the run renders nothing and fails.  Where
    every entry is a result the text is rendered: header with the release
    version, one line per result, footer with the timestamp. *)
Theorem no_line_beside_undefined :
  (forall images r, Some r ∈ images -> None ∈ images ->
     summary images
     = Js.Throw (Js.TypeError_property_of_undefined "willBeReplaced"))
  /\ deploymentFeedback NodeSemver.lib Scenario.dev_down Scenario.order
       Scenario.opts
     = Some [None;
             Some {| env := "sandbox"; currentImageTag := Some "2.4.1";
                     releaseVersion := "2.4.2"; willBeReplaced := true |};
             Some {| env := "production"; currentImageTag := Some "2.4.1";
                     releaseVersion := "2.4.2"; willBeReplaced := true |}]
  /\ summary
       [None;
        Some {| env := "sandbox"; currentImageTag := Some "2.4.1";
                releaseVersion := "2.4.2"; willBeReplaced := true |};
        Some {| env := "production"; currentImageTag := Some "2.4.1";
                releaseVersion := "2.4.2"; willBeReplaced := true |}]
     = Js.Throw (Js.TypeError_property_of_undefined "willBeReplaced")
  /\ run NodeSemver.lib Scenario.dev_down Scenario.order Scenario.inputs
     = Failed (Js.TypeError_property_of_undefined "willBeReplaced")
  /\ (exists comments output,
        run NodeSemver.lib Scenario.healthy Scenario.order Scenario.inputs
        = Completed
            ("Continuous Deployment Summary for **v2.4.2**:"
             +:+ newline +:+ newline
             +:+ "✅ **dev** will be updated, currently running 2.4.1"
             +:+ newline
             +:+ "✅ **sandbox** will be updated, currently running 2.4.1"
             +:+ newline
             +:+ "✅ **production** will be updated, currently running 2.4.1"
             +:+ newline +:+ newline
             +:+ "_Information valid as of 2024-01-01T00:00:00.000Z_")
            comments output).
Proof.
  split; [intros images r _ Hin; by apply summary_undefined|].
  split; [vm_compute; reflexivity|].
  split; [reflexivity|].
  split; [vm_compute; reflexivity|].
  do 2 eexists. vm_compute. reflexivity.
Qed.

(** * Further properties of the code *)

(** ** The decision *)

Lemma occurs_app c a b :
  Js.occurs c (a +:+ b) = Js.occurs c a || Js.occurs c b.
Proof.
  induction a as [|d a IH]; rewrite ?app_cons, ?app_nil; simpl;
    [reflexivity|].
  rewrite IH. apply orb_assoc.
Qed.

Lemma gate_latest (semver : SemverLib) (env t v : string) :
  String.prefix "latest" t = true ->
  gate semver env (Some t) v = true.
Proof.
  intros Hlatest. unfold gate, Js.starts_with. simpl. rewrite Hlatest.
  by destruct (_ && _).
Qed.

(** X2.  A candidate [a-b] is decided exactly as the candidate [a+b]
    (neither part holding another [-]): the prerelease separator is read as
    the build separator before the range is tested. *)
Theorem gate_prerelease_as_build (semver : SemverLib) (env : string)
  (currentImageTag : option string) (a b : string) :
  Js.occurs "-" a = false ->
  Js.occurs "-" b = false ->
  gate semver env currentImageTag (a +:+ "-" +:+ b)
  = gate semver env currentImageTag (a +:+ "+" +:+ b).
Proof.
  intros Ha Hb. unfold gate, tagAsBuild.
  rewrite (replace_first "-" "+" a b Ha
           : Js.replace "-" "+" (a +:+ "-" +:+ b) = a +:+ "+" +:+ b).
  rewrite (replace_absent "-" "+" (a +:+ "+" +:+ b)); [reflexivity|].
  rewrite occurs_app, Ha. change ("+" +:+ b) with (String "+" b).
  simpl. exact Hb.
Qed.

Lemma gate_prerelease_as_build_witness :
  gate NodeSemver.lib "production" (Some "2.4.1") ("2.4.2" +:+ "-" +:+ "rc1")
  = gate NodeSemver.lib "production" (Some "2.4.1") ("2.4.2" +:+ "+" +:+ "rc1").
Proof.
  apply (gate_prerelease_as_build NodeSemver.lib "production" (Some "2.4.1")
           "2.4.2" "rc1"); reflexivity.
Defined.

(** ** The image lookup *)

Lemma find_container_ext w w' repoName cds :
  regexp w = regexp w' ->
  find_container w repoName cds = find_container w' repoName cds.
Proof.
  intros Hre. induction cds as [|c cds IH]; simpl; [reflexivity|].
  rewrite Hre. destruct (regexp w' repoName) as [re|]; simpl; [|reflexivity].
  by rewrite IH.
Qed.

Lemma find_container_first w repoName re before c after :
  regexp w repoName = Js.Return re ->
  (forall x, x ∈ before -> re x = false) ->
  re c = true ->
  find_container w repoName (before ++ c :: after) = Js.Return (Some c).
Proof.
  intros Hre Hbefore Hc. induction before as [|x before IH]; simpl.
  - rewrite Hre. simpl. by rewrite Hc.
  - rewrite Hre. simpl. rewrite (Hbefore x) by (apply elem_of_cons; by left).
    apply IH. intros y Hy. apply Hbefore, elem_of_cons. by right.
Qed.

Lemma find_container_none w repoName re cds :
  regexp w repoName = Js.Return re ->
  (forall x, x ∈ cds -> re x = false) ->
  find_container w repoName cds = Js.Return None.
Proof.
  intros Hre Hnone. induction cds as [|x cds IH]; simpl; [reflexivity|].
  rewrite Hre. simpl. rewrite (Hnone x) by (apply elem_of_cons; by left).
  apply IH. intros y Hy. apply Hnone, elem_of_cons. by right.
Qed.

Lemma find_container_sound w repoName cds c :
  find_container w repoName cds = Js.Return (Some c) ->
  c ∈ cds /\ exists re, regexp w repoName = Js.Return re /\ re c = true.
Proof.
  induction cds as [|x cds IH]; simpl; [discriminate|].
  destruct (regexp w repoName) as [re|] eqn:Hre; simpl; [|discriminate].
  destruct (re x) eqn:Hx.
  - intros [= <-]. split; [apply elem_of_cons; by left|]. by exists re.
  - intros [Hin Hmatch]%IH. split; [apply elem_of_cons; by right|done].
Qed.

(** X3.  The current image is that of the first container whose image the
    repository pattern matches; containers after it are not considered,
    matching or not. *)
Theorem getCurrentImage_first_match w env key secret repoName cluster service
  re before c after :
  ecs w key secret cluster service = EcsContainers (before ++ c :: after) ->
  regexp w repoName = Js.Return re ->
  (forall x, x ∈ before -> re x = false) ->
  re c = true ->
  getCurrentImage w env key secret repoName cluster service
  = Js.Return {| image := c; tag := Js.split ":" c !! 1%nat |}.
Proof.
  intros Hecs Hre Hbefore Hc. unfold getCurrentImage. rewrite Hecs.
  by rewrite (find_container_first _ _ _ _ _ _ Hre Hbefore Hc).
Qed.

Lemma getCurrentImage_first_match_witness :
  getCurrentImage Cases.two_matches "dev" "AKIADEV" "dev-secret" (Some "api")
    "dev-main" "dev-api"
  = Js.Return
      {| image := "123456789012.dkr.ecr.eu-north-1.amazonaws.com/api:2.4.1";
         tag := Js.split ":"
                  "123456789012.dkr.ecr.eu-north-1.amazonaws.com/api:2.4.1"
                !! 1%nat |}.
Proof.
  apply (getCurrentImage_first_match Cases.two_matches "dev" "AKIADEV"
           "dev-secret" (Some "api") "dev-main" "dev-api"
           (Scenario.includes "api") ["nginx:1.25"]
           "123456789012.dkr.ecr.eu-north-1.amazonaws.com/api:2.4.1"
           ["mirror.local/api:9.9.9"]).
  - reflexivity.
  - reflexivity.
  - intros x Hx. apply list_elem_of_singleton in Hx. subst x.
    vm_compute. reflexivity.
  - vm_compute. reflexivity.
Defined.

(** X4.  An image that the lookup returns is the image of a container of
    the task definition that ECS answered with, and the repository pattern
    matches it. *)
Theorem getCurrentImage_sound w env key secret repoName cluster service img :
  getCurrentImage w env key secret repoName cluster service = Js.Return img ->
  exists cds re,
    ecs w key secret cluster service = EcsContainers cds
    /\ regexp w repoName = Js.Return re
    /\ image img ∈ cds
    /\ re (image img) = true.
Proof.
  unfold getCurrentImage.
  destruct (ecs w key secret cluster service) as [e|cds]; [discriminate|].
  destruct (find_container w repoName cds) as [[c|]|] eqn:Hfind; simpl;
    [|discriminate..].
  intros [= <-]. simpl.
  destruct (find_container_sound _ _ _ _ Hfind) as (Hin & re & Hre & Hc).
  by exists cds, re.
Qed.

Lemma getCurrentImage_sound_witness :
  exists cds re,
    ecs Scenario.healthy "AKIADEV" "dev-secret" "dev-main" "dev-api"
    = EcsContainers cds
    /\ regexp Scenario.healthy (Some "api") = Js.Return re
    /\ "123456789012.dkr.ecr.eu-north-1.amazonaws.com/api:2.4.1" ∈ cds
    /\ re "123456789012.dkr.ecr.eu-north-1.amazonaws.com/api:2.4.1" = true.
Proof.
  exact (getCurrentImage_sound Scenario.healthy "dev" "AKIADEV" "dev-secret"
           (Some "api") "dev-main" "dev-api"
           {| image := "123456789012.dkr.ecr.eu-north-1.amazonaws.com/api:2.4.1";
              tag := Some "2.4.1" |} eq_refl).
Defined.

(** X5.  The lookup throws when ECS answers with containers none of which
    the pattern matches (reading [image] of [undefined]); with an empty
    container list this happens before any pattern is built; and with a
    container to test, an invalid pattern makes the lookup throw that
    error. *)
Theorem getCurrentImage_throws w env key secret repoName cluster service cds :
  ecs w key secret cluster service = EcsContainers cds ->
  (forall re, regexp w repoName = Js.Return re ->
     (forall x, x ∈ cds -> re x = false) ->
     getCurrentImage w env key secret repoName cluster service
     = Js.Throw (Js.TypeError_property_of_undefined "image"))
  /\ (cds = [] ->
      getCurrentImage w env key secret repoName cluster service
      = Js.Throw (Js.TypeError_property_of_undefined "image"))
  /\ (forall e, cds <> [] -> regexp w repoName = Js.Throw e ->
      getCurrentImage w env key secret repoName cluster service = Js.Throw e).
Proof.
  intros Hecs. unfold getCurrentImage. rewrite Hecs. repeat split.
  - intros re Hre Hnone. by rewrite (find_container_none _ _ _ _ Hre Hnone).
  - by intros ->.
  - intros e Hne Hre. destruct cds as [|c cds]; [done|]. simpl.
    by rewrite Hre.
Qed.

Lemma getCurrentImage_throws_witness :
  getCurrentImage Cases.unrelated "dev" "AKIADEV" "dev-secret" (Some "api")
    "dev-main" "dev-api"
  = Js.Throw (Js.TypeError_property_of_undefined "image")
  /\ getCurrentImage Cases.bad_pattern "dev" "AKIADEV" "dev-secret"
       (Some "api(") "dev-main" "dev-api"
     = Js.Throw (Js.SyntaxError_invalid_regexp "api(").
Proof.
  split.
  - apply (proj1 (getCurrentImage_throws Cases.unrelated "dev" "AKIADEV"
                    "dev-secret" (Some "api") "dev-main" "dev-api"
                    ["nginx:1.25"; "redis:7"] eq_refl)
             (Scenario.includes "api") eq_refl).
    intros x Hx. apply elem_of_cons in Hx as [->|Hx]; [by vm_compute|].
    apply list_elem_of_singleton in Hx. subst x. by vm_compute.
  - apply (proj2 (proj2 (getCurrentImage_throws Cases.bad_pattern "dev"
                           "AKIADEV" "dev-secret" (Some "api(") "dev-main"
                           "dev-api" Scenario.containers eq_refl))
             (Js.SyntaxError_invalid_regexp "api(")); [discriminate|reflexivity].
Defined.

(** ** One environment *)

(** X1.  An environment whose image [a:t] carries a tag [t] that begins
    with [latest] is reported as replaced, whatever the candidate, the
    policy of the environment and the semver implementation. *)
Theorem envFeedback_latest semver w opts e creds img a t :
  get (ECS opts) e = Some creds ->
  getCurrentImage w e (key creds) (secret creds) (Options.repoName opts)
    (e +:+ "-" +:+ Options.clusterName opts)
    (e +:+ "-" +:+ Options.serviceName opts) = Js.Return img ->
  image img = a +:+ ":" +:+ t ->
  Js.occurs ":" a = false ->
  Js.occurs ":" t = false ->
  String.prefix "latest" t = true ->
  envFeedback semver w opts e
  = Some {| env := e; currentImageTag := Some t;
            releaseVersion := Options.releaseVersion opts;
            willBeReplaced := true |}.
Proof.
  intros Hcreds Himage Hshape Ha Ht Hlatest.
  unfold envFeedback, attempt. rewrite Hcreds. simpl. rewrite Himage. simpl.
  rewrite (getCurrentImage_tag _ _ _ _ _ _ _ _ Himage), Hshape.
  change (":" +:+ t) with (String ":" t).
  rewrite (split_first _ _ _ Ha), (split_absent _ _ Ht). simpl.
  by rewrite (gate_latest _ _ _ _ Hlatest).
Qed.

Lemma envFeedback_latest_witness :
  envFeedback NodeSemver.lib Cases.floating Scenario.opts "production"
  = Some {| env := "production"; currentImageTag := Some "latest-0a1b2c3";
            releaseVersion := Options.releaseVersion Scenario.opts;
            willBeReplaced := true |}.
Proof.
  apply (envFeedback_latest NodeSemver.lib Cases.floating Scenario.opts
           "production"
           {| key := "AKIAPRODUCTION"; secret := "production-secret" |}
           {| image := "internal/api:latest-0a1b2c3";
              tag := Some "latest-0a1b2c3" |}
           "internal/api" "latest-0a1b2c3");
    reflexivity.
Defined.

(** X6.  When the image found has no [:], the tag is [undefined]: the
    environment is reported as not replaced, whatever the candidate and the
    policy, and its line of the summary reads [currently running
    undefined]. *)
Theorem envFeedback_untagged semver w opts e creds img :
  get (ECS opts) e = Some creds ->
  getCurrentImage w e (key creds) (secret creds) (Options.repoName opts)
    (e +:+ "-" +:+ Options.clusterName opts)
    (e +:+ "-" +:+ Options.serviceName opts) = Js.Return img ->
  Js.occurs ":" (image img) = false ->
  envFeedback semver w opts e
  = Some {| env := e; currentImageTag := None;
            releaseVersion := Options.releaseVersion opts;
            willBeReplaced := false |}
  /\ summaryLine (envFeedback semver w opts e)
     = Js.Return ("❌ **" +:+ e
                  +:+ "** will not be updated, currently running undefined").
Proof.
  intros Hcreds Himage Hcolon.
  assert (envFeedback semver w opts e
          = Some {| env := e; currentImageTag := None;
                    releaseVersion := Options.releaseVersion opts;
                    willBeReplaced := false |}) as ->.
  { unfold envFeedback, attempt. rewrite Hcreds. simpl. rewrite Himage. simpl.
    rewrite (getCurrentImage_tag _ _ _ _ _ _ _ _ Himage).
    rewrite (split_absent _ _ Hcolon). reflexivity. }
  split; reflexivity.
Qed.

Lemma envFeedback_untagged_witness :
  envFeedback NodeSemver.lib Cases.untagged Scenario.opts "dev"
  = Some {| env := "dev"; currentImageTag := None;
            releaseVersion := Options.releaseVersion Scenario.opts;
            willBeReplaced := false |}
  /\ summaryLine (envFeedback NodeSemver.lib Cases.untagged Scenario.opts "dev")
     = Js.Return ("❌ **" +:+ "dev"
                  +:+ "** will not be updated, currently running undefined").
Proof.
  apply (envFeedback_untagged NodeSemver.lib Cases.untagged Scenario.opts "dev"
           {| key := "AKIADEV"; secret := "dev-secret" |}
           {| image := "internal/api"; tag := None |});
    reflexivity.
Defined.

(** X7.  The outcome for an environment depends on the world only through
    the pattern matcher and the one ECS call made with that environment's
    own credentials, cluster and service names: what ECS answers for the
    other environments, a failure included, does not change it. *)
Theorem envFeedback_own_lookup semver w w' opts e creds :
  get (ECS opts) e = Some creds ->
  regexp w = regexp w' ->
  ecs w (key creds) (secret creds)
    (e +:+ "-" +:+ Options.clusterName opts)
    (e +:+ "-" +:+ Options.serviceName opts)
  = ecs w' (key creds) (secret creds)
      (e +:+ "-" +:+ Options.clusterName opts)
      (e +:+ "-" +:+ Options.serviceName opts) ->
  envFeedback semver w opts e = envFeedback semver w' opts e.
Proof.
  intros Hcreds Hre Hecs. unfold envFeedback, attempt, getCurrentImage.
  rewrite Hcreds. simpl. rewrite Hecs.
  destruct (ecs w' _ _ _ _) as [err|cds]; [reflexivity|].
  by rewrite (find_container_ext w w' _ _ Hre).
Qed.

Lemma envFeedback_own_lookup_witness :
  envFeedback NodeSemver.lib Scenario.healthy Scenario.opts "sandbox"
  = envFeedback NodeSemver.lib Scenario.dev_down Scenario.opts "sandbox".
Proof.
  apply (envFeedback_own_lookup NodeSemver.lib Scenario.healthy
           Scenario.dev_down Scenario.opts "sandbox"
           {| key := "AKIASANDBOX"; secret := "sandbox-secret" |});
    reflexivity.
Defined.

(** ** A lookup that never settles *)

Lemma Promise_all_pending {A} (values : list A) (order : list nat) (i : nat) :
  i < length values -> i ∉ order -> Promise_all order values = None.
Proof.
  intros Hlt Hnot. unfold Promise_all. apply mapM_None_2, Exists_exists.
  exists None. split; [|reflexivity].
  apply (list_elem_of_lookup_2 _ i). unfold settle.
  rewrite fill_lookup by (by rewrite length_replicate).
  rewrite decide_False by done. by apply lookup_replicate_2.
Qed.

(** X8.  While the lookup of one environment has not settled the run
    neither completes nor fails: nothing is posted, no output is set and
    [core.setFailed] is not called, whatever the other lookups gave. *)
Theorem run_pending semver w order inputs i :
  i < length (envs (options inputs
                      (Js.split "/" (Inputs.repository inputs) !! 1%nat))) ->
  i ∉ order ->
  deploymentFeedback semver w order
    (options inputs (Js.split "/" (Inputs.repository inputs) !! 1%nat)) = None
  /\ run semver w order inputs = Pending.
Proof.
  intros Hlt Hnot.
  assert (deploymentFeedback semver w order
            (options inputs (Js.split "/" (Inputs.repository inputs) !! 1%nat))
          = None) as Hdf.
  { unfold deploymentFeedback. apply (Promise_all_pending _ _ i); [|done].
    by rewrite length_fmap. }
  split; [exact Hdf|]. unfold run. by rewrite Hdf.
Qed.

Lemma run_pending_witness :
  deploymentFeedback NodeSemver.lib Scenario.healthy Cases.order_without_dev
    Scenario.opts = None
  /\ run NodeSemver.lib Scenario.healthy Cases.order_without_dev
       Scenario.inputs = Pending.
Proof.
  apply (run_pending NodeSemver.lib Scenario.healthy Cases.order_without_dev
           Scenario.inputs 0%nat).
  - vm_compute. lia.
  - unfold Cases.order_without_dev. intros Hin.
    apply elem_of_cons in Hin as [Hin|Hin]; [discriminate|].
    apply list_elem_of_singleton in Hin. discriminate.
Defined.

(** ** The whole run *)

Lemma findPullRequest_inv w token owner repo sha prs :
  findPullRequest w token owner repo sha = Js.Return prs ->
  exists relatedPulls,
    pulls w token owner repo sha = Js.Return relatedPulls
    /\ prs = mainPrs relatedPulls.
Proof.
  unfold findPullRequest.
  destruct (pulls w token owner repo sha) as [relatedPulls|]; [|discriminate].
  simpl. intros [= <-]. by exists relatedPulls.
Qed.

Lemma findPullRequest_throws w token owner repo sha e :
  findPullRequest w token owner repo sha = Js.Throw e <->
  pulls w token owner repo sha = Js.Throw e.
Proof.
  unfold findPullRequest.
  destruct (pulls w token owner repo sha) as [relatedPulls|]; simpl;
    [split; discriminate|reflexivity].
Qed.

Lemma summary_Throw_inv images e :
  summary images = Js.Throw e ->
  None ∈ images /\ e = Js.TypeError_property_of_undefined "willBeReplaced".
Proof.
  induction images as [|i images IH]; [discriminate|].
  rewrite summary_cons. destruct i as [r|].
  - rewrite summaryLine_result. simpl.
    destruct (summary images) as [rest|err]; [discriminate|].
    intros [= <-]. destruct (IH eq_refl) as [Hin ->].
    split; [apply elem_of_cons; by right|reflexivity].
  - intros [= <-]. split; [apply elem_of_cons; by left|reflexivity].
Qed.

(** X9.  When every lookup has given a result and the listing of pull
    requests rejects, the run fails with that error: the summary that was
    built is not posted and no output is set. *)
Theorem run_fails_when_listing_rejects semver w order inputs results e :
  deploymentFeedback semver w order
    (options inputs (Js.split "/" (Inputs.repository inputs) !! 1%nat))
  = Some (Some <$> results) ->
  pulls w (Inputs.token inputs)
    (Js.split "/" (Inputs.repository inputs) !! 0%nat)
    (Js.split "/" (Inputs.repository inputs) !! 1%nat)
    (Inputs.sha inputs) = Js.Throw e ->
  run semver w order inputs = Failed e.
Proof.
  intros Hdf Hpulls. unfold run. rewrite Hdf. unfold report.
  rewrite summary_results. simpl.
  apply findPullRequest_throws in Hpulls. by rewrite Hpulls.
Qed.

Lemma run_fails_when_listing_rejects_witness :
  run NodeSemver.lib Cases.github_down Scenario.order Scenario.inputs
  = Failed (Js.ExternalError "Bad credentials").
Proof.
  apply (run_fails_when_listing_rejects NodeSemver.lib Cases.github_down
           Scenario.order Scenario.inputs
           [{| env := "dev"; currentImageTag := Some "2.4.1";
               releaseVersion := "2.4.2"; willBeReplaced := true |};
            {| env := "sandbox"; currentImageTag := Some "2.4.1";
               releaseVersion := "2.4.2"; willBeReplaced := true |};
            {| env := "production"; currentImageTag := Some "2.4.1";
               releaseVersion := "2.4.2"; willBeReplaced := true |}]).
  - vm_compute. reflexivity.
  - reflexivity.
Defined.

(** X10.  When every lookup has given a result and the listing returns,
    the run completes: it requests one comment, carrying the summary, for
    each listed pull request that is open against [main], in the order of
    the listing, and sets the output to the serialized results. *)
Theorem run_completes semver w order inputs results relatedPulls :
  deploymentFeedback semver w order
    (options inputs (Js.split "/" (Inputs.repository inputs) !! 1%nat))
  = Some (Some <$> results) ->
  pulls w (Inputs.token inputs)
    (Js.split "/" (Inputs.repository inputs) !! 0%nat)
    (Js.split "/" (Inputs.repository inputs) !! 1%nat)
    (Inputs.sha inputs) = Js.Return relatedPulls ->
  exists comments,
    run semver w order inputs
    = Completed
        (commentBody (Inputs.releaseVersion inputs) (line <$> results) (now w))
        comments
        (JSON.stringify (Some <$> results))
    /\ issue_number <$> comments = number <$> mainPrs relatedPulls
    /\ forall c, c ∈ comments ->
         body c = commentBody (Inputs.releaseVersion inputs)
                    (line <$> results) (now w).
Proof.
  intros Hdf Hpulls. unfold run. rewrite Hdf. unfold report.
  rewrite summary_results. simpl. unfold findPullRequest. rewrite Hpulls.
  simpl. eexists. split; [reflexivity|]. split.
  - rewrite <- list_fmap_compose. reflexivity.
  - intros c (pr & -> & _)%list_elem_of_fmap. reflexivity.
Qed.

Lemma run_completes_witness :
  exists comments,
    run NodeSemver.lib Scenario.healthy Scenario.order Scenario.inputs
    = Completed
        (commentBody "2.4.2"
           (line <$>
              [{| env := "dev"; currentImageTag := Some "2.4.1";
                  releaseVersion := "2.4.2"; willBeReplaced := true |};
               {| env := "sandbox"; currentImageTag := Some "2.4.1";
                  releaseVersion := "2.4.2"; willBeReplaced := true |};
               {| env := "production"; currentImageTag := Some "2.4.1";
                  releaseVersion := "2.4.2"; willBeReplaced := true |}])
           (now Scenario.healthy))
        comments
        (JSON.stringify
           (Some <$>
              [{| env := "dev"; currentImageTag := Some "2.4.1";
                  releaseVersion := "2.4.2"; willBeReplaced := true |};
               {| env := "sandbox"; currentImageTag := Some "2.4.1";
                  releaseVersion := "2.4.2"; willBeReplaced := true |};
               {| env := "production"; currentImageTag := Some "2.4.1";
                  releaseVersion := "2.4.2"; willBeReplaced := true |}]))
    /\ issue_number <$> comments = number <$> mainPrs Scenario.related
    /\ forall c, c ∈ comments ->
         body c
         = commentBody "2.4.2"
             (line <$>
                [{| env := "dev"; currentImageTag := Some "2.4.1";
                    releaseVersion := "2.4.2"; willBeReplaced := true |};
                 {| env := "sandbox"; currentImageTag := Some "2.4.1";
                    releaseVersion := "2.4.2"; willBeReplaced := true |};
                 {| env := "production"; currentImageTag := Some "2.4.1";
                    releaseVersion := "2.4.2"; willBeReplaced := true |}])
             (now Scenario.healthy).
Proof.
  apply (run_completes NodeSemver.lib Scenario.healthy Scenario.order
           Scenario.inputs
           [{| env := "dev"; currentImageTag := Some "2.4.1";
               releaseVersion := "2.4.2"; willBeReplaced := true |};
            {| env := "sandbox"; currentImageTag := Some "2.4.1";
               releaseVersion := "2.4.2"; willBeReplaced := true |};
            {| env := "production"; currentImageTag := Some "2.4.1";
               releaseVersion := "2.4.2"; willBeReplaced := true |}]
           Scenario.related).
  - vm_compute. reflexivity.
  - reflexivity.
Defined.

(** X11.  A run fails for one of two reasons only: a lookup threw, and
    the error is the [TypeError] of reading [willBeReplaced] of [undefined];
    or every lookup gave a result and the listing of pull requests rejected
    with the error reported. *)
Theorem run_failed_inv semver w order inputs e :
  run semver w order inputs = Failed e ->
  exists images,
    deploymentFeedback semver w order
      (options inputs (Js.split "/" (Inputs.repository inputs) !! 1%nat))
    = Some images
    /\ ((None ∈ images
         /\ e = Js.TypeError_property_of_undefined "willBeReplaced")
        \/ ((exists results, images = Some <$> results)
            /\ pulls w (Inputs.token inputs)
                 (Js.split "/" (Inputs.repository inputs) !! 0%nat)
                 (Js.split "/" (Inputs.repository inputs) !! 1%nat)
                 (Inputs.sha inputs) = Js.Throw e)).
Proof.
  unfold run.
  destruct (deploymentFeedback _ _ _ _) as [images|]; [|discriminate].
  intros Hrun. exists images. split; [reflexivity|]. revert Hrun.
  unfold report. destruct (summary images) as [lines|err] eqn:Hsum; simpl.
  - destruct (summary_Return_inv _ _ Hsum) as (results & -> & _).
    destruct (findPullRequest _ _ _ _ _) as [prs|err] eqn:Hfind;
      [discriminate|].
    intros [= <-]. right. split; [by exists results|].
    by apply findPullRequest_throws.
  - intros [= <-]. left. by apply summary_Throw_inv.
Qed.

Lemma run_failed_inv_witness :
  exists images,
    deploymentFeedback NodeSemver.lib Scenario.dev_down Scenario.order
      (options Scenario.inputs
         (Js.split "/" (Inputs.repository Scenario.inputs) !! 1%nat))
    = Some images
    /\ ((None ∈ images
         /\ Js.TypeError_property_of_undefined "willBeReplaced"
            = Js.TypeError_property_of_undefined "willBeReplaced")
        \/ ((exists results, images = Some <$> results)
            /\ pulls Scenario.dev_down (Inputs.token Scenario.inputs)
                 (Js.split "/" (Inputs.repository Scenario.inputs) !! 0%nat)
                 (Js.split "/" (Inputs.repository Scenario.inputs) !! 1%nat)
                 (Inputs.sha Scenario.inputs)
               = Js.Throw (Js.TypeError_property_of_undefined "willBeReplaced"))).
Proof.
  apply (run_failed_inv NodeSemver.lib Scenario.dev_down Scenario.order
           Scenario.inputs).
  vm_compute. reflexivity.
Defined.

(** X12.  A completed run has had a result from every lookup and a
    listing of pull requests; its comments go to the listed pull requests
    that are open against [main] and to no other, each with the text of the
    summary, and its output is the serialized results. *)
Theorem run_completed_comments semver w order inputs text comments output :
  run semver w order inputs = Completed text comments output ->
  exists results relatedPulls,
    deploymentFeedback semver w order
      (options inputs (Js.split "/" (Inputs.repository inputs) !! 1%nat))
    = Some (Some <$> results)
    /\ pulls w (Inputs.token inputs)
         (Js.split "/" (Inputs.repository inputs) !! 0%nat)
         (Js.split "/" (Inputs.repository inputs) !! 1%nat)
         (Inputs.sha inputs) = Js.Return relatedPulls
    /\ output = JSON.stringify (Some <$> results)
    /\ length comments = length (mainPrs relatedPulls)
    /\ forall c, c ∈ comments ->
         body c = text
         /\ exists pr, pr ∈ relatedPulls /\ state pr = "open"
                       /\ base_ref pr = "main" /\ issue_number c = number pr.
Proof.
  unfold run.
  destruct (deploymentFeedback _ _ _ _) as [images|]; [|discriminate].
  unfold report. destruct (summary images) as [lines|err] eqn:Hsum;
    [|discriminate].
  destruct (summary_Return_inv _ _ Hsum) as (results & -> & ->). simpl.
  destruct (findPullRequest _ _ _ _ _) as [prs|err] eqn:Hfind; [|discriminate].
  destruct (findPullRequest_inv _ _ _ _ _ _ Hfind) as (relatedPulls & Hpulls & ->).
  intros [= <- <- <-]. exists results, relatedPulls.
  split; [reflexivity|]. split; [exact Hpulls|]. split; [reflexivity|].
  split; [apply length_fmap|].
  intros c (pr & -> & Hpr)%list_elem_of_fmap. split; [reflexivity|].
  exists pr. apply mainPrs_spec in Hpr as (Hin & Hopen & Hmain). done.
Qed.

Lemma run_completed_comments_witness :
  exists text comments output,
    run NodeSemver.lib Scenario.healthy Scenario.order Scenario.inputs
    = Completed text comments output
    /\ length comments = length (mainPrs Scenario.related)
    /\ forall c, c ∈ comments ->
         body c = text
         /\ exists pr, pr ∈ Scenario.related /\ state pr = "open"
                       /\ base_ref pr = "main" /\ issue_number c = number pr.
Proof.
  do 3 eexists. split; [vm_compute; reflexivity|].
  destruct (run_completed_comments NodeSemver.lib Scenario.healthy
              Scenario.order Scenario.inputs _ _ _ eq_refl)
    as (results & relatedPulls & _ & Hpulls & _ & Hlen & Hall).
  injection Hpulls as <-. split; [exact Hlen|exact Hall].
Defined.

(** ** The repository input *)

(** X13.  For a repository given as [owner/name], the containers are
    searched with the pattern [name], and every comment of a completed run
    is requested for that owner and that name. *)
Theorem run_repository semver w order inputs o n text comments output :
  Inputs.repository inputs = o +:+ "/" +:+ n ->
  Js.occurs "/" o = false ->
  Js.occurs "/" n = false ->
  run semver w order inputs = Completed text comments output ->
  (exists results,
     deploymentFeedback semver w order (options inputs (Some n))
     = Some (Some <$> results))
  /\ forall c, c ∈ comments -> owner c = Some o /\ repo c = Some n.
Proof.
  intros Hrepo Ho Hn Hrun.
  assert (Js.split "/" (Inputs.repository inputs) = [o; n]) as Hsplit.
  { rewrite Hrepo. change ("/" +:+ n) with (String "/" n).
    by rewrite (split_first _ _ _ Ho), (split_absent _ _ Hn). }
  revert Hrun. unfold run. rewrite Hsplit. simpl.
  destruct (deploymentFeedback _ _ _ _) as [images|]; [|discriminate].
  unfold report. destruct (summary images) as [lines|err] eqn:Hsum;
    [|discriminate].
  destruct (summary_Return_inv _ _ Hsum) as (results & -> & ->). simpl.
  destruct (findPullRequest _ _ _ _ _) as [prs|err]; [|discriminate].
  intros [= _ <- _]. split; [by exists results|].
  by intros c (pr & -> & _)%list_elem_of_fmap.
Qed.

Lemma run_repository_witness :
  exists text comments output,
    run NodeSemver.lib Scenario.healthy Scenario.order Scenario.inputs
    = Completed text comments output
    /\ (exists results,
          deploymentFeedback NodeSemver.lib Scenario.healthy Scenario.order
            (options Scenario.inputs (Some "api"))
          = Some (Some <$> results))
    /\ forall c, c ∈ comments -> owner c = Some "enode" /\ repo c = Some "api".
Proof.
  do 3 eexists. split; [vm_compute; reflexivity|].
  eapply (run_repository NodeSemver.lib Scenario.healthy Scenario.order
            Scenario.inputs "enode" "api");
    reflexivity.
Defined.

(** X14.  With a repository given without [/], a run can still
    complete; when it does, the containers were searched with an undefined
    pattern, and its comments are requested with the whole input as owner
    and no repository name. *)
Theorem run_repository_without_slash semver w order inputs text comments output :
  Js.occurs "/" (Inputs.repository inputs) = false ->
  run semver w order inputs = Completed text comments output ->
  (exists results,
     deploymentFeedback semver w order (options inputs None)
     = Some (Some <$> results))
  /\ forall c, c ∈ comments ->
       owner c = Some (Inputs.repository inputs) /\ repo c = None.
Proof.
  intros Hrepo. unfold run. rewrite (split_absent _ _ Hrepo). simpl.
  destruct (deploymentFeedback _ _ _ _) as [images|]; [|discriminate].
  unfold report. destruct (summary images) as [lines|err] eqn:Hsum;
    [|discriminate].
  destruct (summary_Return_inv _ _ Hsum) as (results & -> & ->). simpl.
  destruct (findPullRequest _ _ _ _ _) as [prs|err]; [|discriminate].
  intros [= _ <- _]. split; [by exists results|].
  by intros c (pr & -> & _)%list_elem_of_fmap.
Qed.

Lemma run_repository_without_slash_witness :
  exists text comments output,
    run NodeSemver.lib Cases.any_pattern Scenario.order Cases.inputs_bare
    = Completed text comments output
    /\ comments <> []
    /\ (exists results,
          deploymentFeedback NodeSemver.lib Cases.any_pattern Scenario.order
            (options Cases.inputs_bare None)
          = Some (Some <$> results))
    /\ forall c, c ∈ comments -> owner c = Some "api" /\ repo c = None.
Proof.
  do 3 eexists. split; [vm_compute; reflexivity|].
  split; [discriminate|].
  eapply (run_repository_without_slash NodeSemver.lib Cases.any_pattern
            Scenario.order Cases.inputs_bare);
    reflexivity.
Defined.

(** ** The report *)

Lemma Promise_all_Some_inv {A} (values l : list A) (order : list nat) :
  Promise_all order values = Some l -> l = values.
Proof.
  unfold Promise_all. intros Hall%mapM_Some_1.
  pose proof (Forall2_length _ _ _ Hall) as Hlen.
  unfold settle in Hlen. rewrite fill_length, length_replicate in Hlen.
  apply list_eq. intros j.
  destruct (decide (j < length values)) as [Hlt|Hge].
  - destruct (lookup_lt_is_Some_2 l j) as [y Hy]; [lia|].
    destruct (Forall2_lookup_r _ _ _ _ _ Hall Hy) as (x & Hx & Hxy).
    simpl in Hxy. subst x. unfold settle in Hx.
    rewrite fill_lookup in Hx by (by rewrite length_replicate).
    destruct (decide (j ∈ order)).
    + injection Hx as Hx. congruence.
    + rewrite lookup_replicate_2 in Hx by done. discriminate.
  - rewrite !(lookup_ge_None_2 _ j); [reflexivity|lia..].
Qed.

(** X15.  Whenever [deploymentFeedback] resolves, in whatever order the
    lookups settled, each result of the report is at the position of its
    environment in the policy table, carries the release version as it was
    given (not the normalized one) and the tag found, and its
    [willBeReplaced] is the decision of the gate for these three values. *)
Theorem report_results semver w order opts images i r :
  deploymentFeedback semver w order opts = Some images ->
  images !! i = Some (Some r) ->
  Object_keys ENV_VERSION_COMPARATOR !! i = Some (env r)
  /\ releaseVersion r = Options.releaseVersion opts
  /\ willBeReplaced r
     = gate semver (env r) (currentImageTag r) (Options.releaseVersion opts)
  /\ length images = length (Object_keys ENV_VERSION_COMPARATOR).
Proof.
  unfold deploymentFeedback. intros ->%Promise_all_Some_inv.
  rewrite list_lookup_fmap, length_fmap.
  change (envs opts) with (Object_keys ENV_VERSION_COMPARATOR).
  destruct (Object_keys ENV_VERSION_COMPARATOR !! i) as [e|] eqn:He;
    [|discriminate].
  simpl. intros [= Hr]. unfold envFeedback in Hr.
  destruct (attempt semver w opts e) as [r'|err] eqn:Hattempt; [|discriminate].
  injection Hr as ->. revert Hattempt. unfold attempt.
  destruct (get (ECS opts) e); simpl; [|discriminate].
  destruct (getCurrentImage _ _ _ _ _ _ _); simpl; [|discriminate].
  intros [= <-]. simpl. done.
Qed.

Lemma report_results_witness :
  Object_keys ENV_VERSION_COMPARATOR !! 1%nat = Some "sandbox"
  /\ "2.4.2" = Options.releaseVersion Scenario.opts
  /\ true = gate NodeSemver.lib "sandbox" (Some "2.4.1")
              (Options.releaseVersion Scenario.opts)
  /\ 3%nat = length (Object_keys ENV_VERSION_COMPARATOR).
Proof.
  exact (report_results NodeSemver.lib Scenario.dev_down Scenario.order
           Scenario.opts
           [None;
            Some {| env := "sandbox"; currentImageTag := Some "2.4.1";
                    releaseVersion := "2.4.2"; willBeReplaced := true |};
            Some {| env := "production"; currentImageTag := Some "2.4.1";
                    releaseVersion := "2.4.2"; willBeReplaced := true |}]
           1%nat
           {| env := "sandbox"; currentImageTag := Some "2.4.1";
              releaseVersion := "2.4.2"; willBeReplaced := true |}
           ltac:(vm_compute; reflexivity) eq_refl).
Defined.
